(** * StyleMate: the rule-based suggestion engine and the request handlers

    A shallow embedding of [app.py].  A Python [str] is held as the bytes of
    its UTF-8 encoding: splitting at a comma, joining and substring search
    are the same on the bytes as on the code points, and [lower] and
    [strip] work on the code points, with the tables of CPython.  The
    dictionaries of the program ([categories], the submitted form, the
    session, a template's keyword arguments) are finite maps keyed by
    strings. *)

From Stdlib Require Import Ascii String NArith ZArith QArith.
From stdpp Require Import base option list strings gmap fin_maps.

Local Open Scope string_scope.
Local Open Scope list_scope.

(** ** Python's string operations *)

Module Py.

(** A [str] is held as the bytes of its UTF-8 encoding; the characters of
    a text are the byte groups of its code points.  The tables below are
    those of Unicode 14.0.0, the version of CPython 3.11. *)

(** A continuation byte, 80..BF. *)
Definition is_cont (b : ascii) : bool :=
  let n := N_of_ascii b in ((128 <=? n) && (n <=? 191))%N.

(** The number of bytes a leading byte announces; 0 for a byte that cannot
    lead. *)
Definition lead_len (b : ascii) : nat :=
  let n := N_of_ascii b in
  if (n <? 128)%N then 1
  else if (n <? 194)%N then 0
  else if (n <? 224)%N then 2
  else if (n <? 240)%N then 3
  else if (n <? 245)%N then 4
  else 0.

(** The characters of a text, each as its bytes.  A byte that starts no
    well-formed group is kept as a character of its own. *)
Fixpoint chars (s : string) : list string :=
  match s with
  | EmptyString => []
  | String b0 s1 =>
      let single := String b0 EmptyString :: chars s1 in
      match lead_len b0 with
      | 2 =>
          match s1 with
          | String b1 s2 =>
              if is_cont b1
              then String b0 (String b1 EmptyString) :: chars s2
              else single
          | _ => single
          end
      | 3 =>
          match s1 with
          | String b1 (String b2 s3) =>
              if is_cont b1 && is_cont b2
              then String b0 (String b1 (String b2 EmptyString)) :: chars s3
              else single
          | _ => single
          end
      | 4 =>
          match s1 with
          | String b1 (String b2 (String b3 s4)) =>
              if is_cont b1 && is_cont b2 && is_cont b3
              then String b0 (String b1 (String b2 (String b3 EmptyString)))
                   :: chars s4
              else single
          | _ => single
          end
      | _ => single
      end
  end.

(** The text made of the given characters. *)
Fixpoint unchars (us : list string) : string :=
  match us with
  | [] => EmptyString
  | u :: rest => u +:+ unchars rest
  end.

(** [u] is the encoding of one code point. *)
Definition complete (u : string) : bool :=
  match u with
  | String b0 EmptyString => Nat.eqb (lead_len b0) 1
  | String b0 (String b1 EmptyString) => Nat.eqb (lead_len b0) 2 && is_cont b1
  | String b0 (String b1 (String b2 EmptyString)) =>
      Nat.eqb (lead_len b0) 3 && is_cont b1 && is_cont b2
  | String b0 (String b1 (String b2 (String b3 EmptyString))) =>
      Nat.eqb (lead_len b0) 4 && is_cont b1 && is_cont b2 && is_cont b3
  | _ => false
  end.

(** [s] is the encoding of a [str]: every character is a code point. *)
Definition utf8 (s : string) : bool := forallb complete (chars s).

(** The code point of a character; a stray byte gets a number past the
    last code point. *)
Definition codepoint (u : string) : N :=
  match u with
  | String b0 EmptyString =>
      let n := N_of_ascii b0 in if (n <? 128)%N then n else (1114112 + n)%N
  | String b0 (String b1 EmptyString) =>
      ((N_of_ascii b0 - 192) * 64 + (N_of_ascii b1 - 128))%N
  | String b0 (String b1 (String b2 EmptyString)) =>
      ((N_of_ascii b0 - 224) * 4096 + (N_of_ascii b1 - 128) * 64
       + (N_of_ascii b2 - 128))%N
  | String b0 (String b1 (String b2 (String b3 EmptyString))) =>
      ((N_of_ascii b0 - 240) * 262144 + (N_of_ascii b1 - 128) * 4096
       + (N_of_ascii b2 - 128) * 64 + (N_of_ascii b3 - 128))%N
  | _ => 0%N
  end.

Definition in_ranges (ranges : list (N * N)) (c : N) : bool :=
  existsb (λ r, (r.1 <=? c) && (c <=? r.2))%N ranges.

(** The code points [str.isspace] holds of, which [str.strip] removes. *)
Definition whitespace : list N :=
  [ 9; 10; 11; 12; 13; 28; 29; 30; 31; 32; 133; 160; 5760; 8192; 8193; 8194;
    8195; 8196; 8197; 8198; 8199; 8200; 8201; 8202; 8232; 8233; 8239; 8287;
    12288 ]%N.

Definition isspace (u : string) : bool :=
  existsb (N.eqb (codepoint u)) whitespace.

(** The characters [str.lower] changes, with what it makes of them, from
    the last code point down; the capital sigma, which depends on its
    place, is dealt with apart. *)
Definition lower_table : list (string * string) :=
  [ ("𞤡", "𞥃"); ("𞤠", "𞥂"); ("𞤟", "𞥁"); ("𞤞", "𞥀"); ("𞤝", "𞤿"); ("𞤜", "𞤾");
    ("𞤛", "𞤽"); ("𞤚", "𞤼"); ("𞤙", "𞤻"); ("𞤘", "𞤺"); ("𞤗", "𞤹"); ("𞤖", "𞤸");
    ("𞤕", "𞤷"); ("𞤔", "𞤶"); ("𞤓", "𞤵"); ("𞤒", "𞤴"); ("𞤑", "𞤳"); ("𞤐", "𞤲");
    ("𞤏", "𞤱"); ("𞤎", "𞤰"); ("𞤍", "𞤯"); ("𞤌", "𞤮"); ("𞤋", "𞤭"); ("𞤊", "𞤬");
    ("𞤉", "𞤫"); ("𞤈", "𞤪"); ("𞤇", "𞤩"); ("𞤆", "𞤨"); ("𞤅", "𞤧"); ("𞤄", "𞤦");
    ("𞤃", "𞤥"); ("𞤂", "𞤤"); ("𞤁", "𞤣"); ("𞤀", "𞤢"); ("𖹟", "𖹿"); ("𖹞", "𖹾");
    ("𖹝", "𖹽"); ("𖹜", "𖹼"); ("𖹛", "𖹻"); ("𖹚", "𖹺"); ("𖹙", "𖹹"); ("𖹘", "𖹸");
    ("𖹗", "𖹷"); ("𖹖", "𖹶"); ("𖹕", "𖹵"); ("𖹔", "𖹴"); ("𖹓", "𖹳"); ("𖹒", "𖹲");
    ("𖹑", "𖹱"); ("𖹐", "𖹰"); ("𖹏", "𖹯"); ("𖹎", "𖹮"); ("𖹍", "𖹭"); ("𖹌", "𖹬");
    ("𖹋", "𖹫"); ("𖹊", "𖹪"); ("𖹉", "𖹩"); ("𖹈", "𖹨"); ("𖹇", "𖹧"); ("𖹆", "𖹦");
    ("𖹅", "𖹥"); ("𖹄", "𖹤"); ("𖹃", "𖹣"); ("𖹂", "𖹢"); ("𖹁", "𖹡"); ("𖹀", "𖹠");
    ("𑢿", "𑣟"); ("𑢾", "𑣞"); ("𑢽", "𑣝"); ("𑢼", "𑣜"); ("𑢻", "𑣛"); ("𑢺", "𑣚");
    ("𑢹", "𑣙"); ("𑢸", "𑣘"); ("𑢷", "𑣗"); ("𑢶", "𑣖"); ("𑢵", "𑣕"); ("𑢴", "𑣔");
    ("𑢳", "𑣓"); ("𑢲", "𑣒"); ("𑢱", "𑣑"); ("𑢰", "𑣐"); ("𑢯", "𑣏"); ("𑢮", "𑣎");
    ("𑢭", "𑣍"); ("𑢬", "𑣌"); ("𑢫", "𑣋"); ("𑢪", "𑣊"); ("𑢩", "𑣉"); ("𑢨", "𑣈");
    ("𑢧", "𑣇"); ("𑢦", "𑣆"); ("𑢥", "𑣅"); ("𑢤", "𑣄"); ("𑢣", "𑣃"); ("𑢢", "𑣂");
    ("𑢡", "𑣁"); ("𑢠", "𑣀"); ("𐲲", "𐳲"); ("𐲱", "𐳱"); ("𐲰", "𐳰"); ("𐲯", "𐳯");
    ("𐲮", "𐳮"); ("𐲭", "𐳭"); ("𐲬", "𐳬"); ("𐲫", "𐳫"); ("𐲪", "𐳪"); ("𐲩", "𐳩");
    ("𐲨", "𐳨"); ("𐲧", "𐳧"); ("𐲦", "𐳦"); ("𐲥", "𐳥"); ("𐲤", "𐳤"); ("𐲣", "𐳣");
    ("𐲢", "𐳢"); ("𐲡", "𐳡"); ("𐲠", "𐳠"); ("𐲟", "𐳟"); ("𐲞", "𐳞"); ("𐲝", "𐳝");
    ("𐲜", "𐳜"); ("𐲛", "𐳛"); ("𐲚", "𐳚"); ("𐲙", "𐳙"); ("𐲘", "𐳘"); ("𐲗", "𐳗");
    ("𐲖", "𐳖"); ("𐲕", "𐳕"); ("𐲔", "𐳔"); ("𐲓", "𐳓"); ("𐲒", "𐳒"); ("𐲑", "𐳑");
    ("𐲐", "𐳐"); ("𐲏", "𐳏"); ("𐲎", "𐳎"); ("𐲍", "𐳍"); ("𐲌", "𐳌"); ("𐲋", "𐳋");
    ("𐲊", "𐳊"); ("𐲉", "𐳉"); ("𐲈", "𐳈"); ("𐲇", "𐳇"); ("𐲆", "𐳆"); ("𐲅", "𐳅");
    ("𐲄", "𐳄"); ("𐲃", "𐳃"); ("𐲂", "𐳂"); ("𐲁", "𐳁"); ("𐲀", "𐳀"); ("𐖕", "𐖼");
    ("𐖔", "𐖻"); ("𐖒", "𐖹"); ("𐖑", "𐖸"); ("𐖐", "𐖷"); ("𐖏", "𐖶"); ("𐖎", "𐖵");
    ("𐖍", "𐖴"); ("𐖌", "𐖳"); ("𐖊", "𐖱"); ("𐖉", "𐖰"); ("𐖈", "𐖯"); ("𐖇", "𐖮");
    ("𐖆", "𐖭"); ("𐖅", "𐖬"); ("𐖄", "𐖫"); ("𐖃", "𐖪"); ("𐖂", "𐖩"); ("𐖁", "𐖨");
    ("𐖀", "𐖧"); ("𐕿", "𐖦"); ("𐕾", "𐖥"); ("𐕽", "𐖤"); ("𐕼", "𐖣"); ("𐕺", "𐖡");
    ("𐕹", "𐖠"); ("𐕸", "𐖟"); ("𐕷", "𐖞"); ("𐕶", "𐖝"); ("𐕵", "𐖜"); ("𐕴", "𐖛");
    ("𐕳", "𐖚"); ("𐕲", "𐖙"); ("𐕱", "𐖘"); ("𐕰", "𐖗"); ("𐓓", "𐓻"); ("𐓒", "𐓺");
    ("𐓑", "𐓹"); ("𐓐", "𐓸"); ("𐓏", "𐓷"); ("𐓎", "𐓶"); ("𐓍", "𐓵"); ("𐓌", "𐓴");
    ("𐓋", "𐓳"); ("𐓊", "𐓲"); ("𐓉", "𐓱"); ("𐓈", "𐓰"); ("𐓇", "𐓯"); ("𐓆", "𐓮");
    ("𐓅", "𐓭"); ("𐓄", "𐓬"); ("𐓃", "𐓫"); ("𐓂", "𐓪"); ("𐓁", "𐓩"); ("𐓀", "𐓨");
    ("𐒿", "𐓧"); ("𐒾", "𐓦"); ("𐒽", "𐓥"); ("𐒼", "𐓤"); ("𐒻", "𐓣"); ("𐒺", "𐓢");
    ("𐒹", "𐓡"); ("𐒸", "𐓠"); ("𐒷", "𐓟"); ("𐒶", "𐓞"); ("𐒵", "𐓝"); ("𐒴", "𐓜");
    ("𐒳", "𐓛"); ("𐒲", "𐓚"); ("𐒱", "𐓙"); ("𐒰", "𐓘"); ("𐐧", "𐑏"); ("𐐦", "𐑎");
    ("𐐥", "𐑍"); ("𐐤", "𐑌"); ("𐐣", "𐑋"); ("𐐢", "𐑊"); ("𐐡", "𐑉"); ("𐐠", "𐑈");
    ("𐐟", "𐑇"); ("𐐞", "𐑆"); ("𐐝", "𐑅"); ("𐐜", "𐑄"); ("𐐛", "𐑃"); ("𐐚", "𐑂");
    ("𐐙", "𐑁"); ("𐐘", "𐑀"); ("𐐗", "𐐿"); ("𐐖", "𐐾"); ("𐐕", "𐐽"); ("𐐔", "𐐼");
    ("𐐓", "𐐻"); ("𐐒", "𐐺"); ("𐐑", "𐐹"); ("𐐐", "𐐸"); ("𐐏", "𐐷"); ("𐐎", "𐐶");
    ("𐐍", "𐐵"); ("𐐌", "𐐴"); ("𐐋", "𐐳"); ("𐐊", "𐐲"); ("𐐉", "𐐱"); ("𐐈", "𐐰");
    ("𐐇", "𐐯"); ("𐐆", "𐐮"); ("𐐅", "𐐭"); ("𐐄", "𐐬"); ("𐐃", "𐐫"); ("𐐂", "𐐪");
    ("𐐁", "𐐩"); ("𐐀", "𐐨"); ("Ｚ", "ｚ"); ("Ｙ", "ｙ"); ("Ｘ", "ｘ"); ("Ｗ", "ｗ");
    ("Ｖ", "ｖ"); ("Ｕ", "ｕ"); ("Ｔ", "ｔ"); ("Ｓ", "ｓ"); ("Ｒ", "ｒ"); ("Ｑ", "ｑ");
    ("Ｐ", "ｐ"); ("Ｏ", "ｏ"); ("Ｎ", "ｎ"); ("Ｍ", "ｍ"); ("Ｌ", "ｌ"); ("Ｋ", "ｋ");
    ("Ｊ", "ｊ"); ("Ｉ", "ｉ"); ("Ｈ", "ｈ"); ("Ｇ", "ｇ"); ("Ｆ", "ｆ"); ("Ｅ", "ｅ");
    ("Ｄ", "ｄ"); ("Ｃ", "ｃ"); ("Ｂ", "ｂ"); ("Ａ", "ａ"); ("Ꟶ", "ꟶ"); ("Ꟙ", "ꟙ");
    ("Ꟗ", "ꟗ"); ("Ꟑ", "ꟑ"); ("Ꟊ", "ꟊ"); ("Ꟈ", "ꟈ"); ("Ᶎ", "ᶎ"); ("Ʂ", "ʂ");
    ("Ꞔ", "ꞔ"); ("Ꟃ", "ꟃ"); ("Ꟁ", "ꟁ"); ("Ꞿ", "ꞿ"); ("Ꞽ", "ꞽ"); ("Ꞻ", "ꞻ");
    ("Ꞹ", "ꞹ"); ("Ꞷ", "ꞷ"); ("Ꞵ", "ꞵ"); ("Ꭓ", "ꭓ"); ("Ʝ", "ʝ"); ("Ʇ", "ʇ");
    ("Ʞ", "ʞ"); ("Ɪ", "ɪ"); ("Ɬ", "ɬ"); ("Ɡ", "ɡ"); ("Ɜ", "ɜ"); ("Ɦ", "ɦ");
    ("Ꞩ", "ꞩ"); ("Ꞧ", "ꞧ"); ("Ꞥ", "ꞥ"); ("Ꞣ", "ꞣ"); ("Ꞡ", "ꞡ"); ("Ꞟ", "ꞟ");
    ("Ꞝ", "ꞝ"); ("Ꞛ", "ꞛ"); ("Ꞙ", "ꞙ"); ("Ꞗ", "ꞗ"); ("Ꞓ", "ꞓ"); ("Ꞑ", "ꞑ");
    ("Ɥ", "ɥ"); ("Ꞌ", "ꞌ"); ("Ꞇ", "ꞇ"); ("Ꞅ", "ꞅ"); ("Ꞃ", "ꞃ"); ("Ꞁ", "ꞁ");
    ("Ꝿ", "ꝿ"); ("Ᵹ", "ᵹ"); ("Ꝼ", "ꝼ"); ("Ꝺ", "ꝺ"); ("Ꝯ", "ꝯ"); ("Ꝭ", "ꝭ");
    ("Ꝫ", "ꝫ"); ("Ꝩ", "ꝩ"); ("Ꝧ", "ꝧ"); ("Ꝥ", "ꝥ"); ("Ꝣ", "ꝣ"); ("Ꝡ", "ꝡ");
    ("Ꝟ", "ꝟ"); ("Ꝝ", "ꝝ"); ("Ꝛ", "ꝛ"); ("Ꝙ", "ꝙ"); ("Ꝗ", "ꝗ"); ("Ꝕ", "ꝕ");
    ("Ꝓ", "ꝓ"); ("Ꝑ", "ꝑ"); ("Ꝏ", "ꝏ"); ("Ꝍ", "ꝍ"); ("Ꝋ", "ꝋ"); ("Ꝉ", "ꝉ");
    ("Ꝇ", "ꝇ"); ("Ꝅ", "ꝅ"); ("Ꝃ", "ꝃ"); ("Ꝁ", "ꝁ"); ("Ꜿ", "ꜿ"); ("Ꜽ", "ꜽ");
    ("Ꜻ", "ꜻ"); ("Ꜹ", "ꜹ"); ("Ꜷ", "ꜷ"); ("Ꜵ", "ꜵ"); ("Ꜳ", "ꜳ"); ("Ꜯ", "ꜯ");
    ("Ꜭ", "ꜭ"); ("Ꜫ", "ꜫ"); ("Ꜩ", "ꜩ"); ("Ꜧ", "ꜧ"); ("Ꜥ", "ꜥ"); ("Ꜣ", "ꜣ");
    ("Ꚛ", "ꚛ"); ("Ꚙ", "ꚙ"); ("Ꚗ", "ꚗ"); ("Ꚕ", "ꚕ"); ("Ꚓ", "ꚓ"); ("Ꚑ", "ꚑ");
    ("Ꚏ", "ꚏ"); ("Ꚍ", "ꚍ"); ("Ꚋ", "ꚋ"); ("Ꚉ", "ꚉ"); ("Ꚇ", "ꚇ"); ("Ꚅ", "ꚅ");
    ("Ꚃ", "ꚃ"); ("Ꚁ", "ꚁ"); ("Ꙭ", "ꙭ"); ("Ꙫ", "ꙫ"); ("Ꙩ", "ꙩ"); ("Ꙧ", "ꙧ");
    ("Ꙥ", "ꙥ"); ("Ꙣ", "ꙣ"); ("Ꙡ", "ꙡ"); ("Ꙟ", "ꙟ"); ("Ꙝ", "ꙝ"); ("Ꙛ", "ꙛ");
    ("Ꙙ", "ꙙ"); ("Ꙗ", "ꙗ"); ("Ꙕ", "ꙕ"); ("Ꙓ", "ꙓ"); ("Ꙑ", "ꙑ"); ("Ꙏ", "ꙏ");
    ("Ꙍ", "ꙍ"); ("Ꙋ", "ꙋ"); ("Ꙉ", "ꙉ"); ("Ꙇ", "ꙇ"); ("Ꙅ", "ꙅ"); ("Ꙃ", "ꙃ");
    ("Ꙁ", "ꙁ"); ("Ⳳ", "ⳳ"); ("Ⳮ", "ⳮ"); ("Ⳬ", "ⳬ"); ("Ⳣ", "ⳣ"); ("Ⳡ", "ⳡ");
    ("Ⳟ", "ⳟ"); ("Ⳝ", "ⳝ"); ("Ⳛ", "ⳛ"); ("Ⳙ", "ⳙ"); ("Ⳗ", "ⳗ"); ("Ⳕ", "ⳕ");
    ("Ⳓ", "ⳓ"); ("Ⳑ", "ⳑ"); ("Ⳏ", "ⳏ"); ("Ⳍ", "ⳍ"); ("Ⳋ", "ⳋ"); ("Ⳉ", "ⳉ");
    ("Ⳇ", "ⳇ"); ("Ⳅ", "ⳅ"); ("Ⳃ", "ⳃ"); ("Ⳁ", "ⳁ"); ("Ⲿ", "ⲿ"); ("Ⲽ", "ⲽ");
    ("Ⲻ", "ⲻ"); ("Ⲹ", "ⲹ"); ("Ⲷ", "ⲷ"); ("Ⲵ", "ⲵ"); ("Ⲳ", "ⲳ"); ("Ⲱ", "ⲱ");
    ("Ⲯ", "ⲯ"); ("Ⲭ", "ⲭ"); ("Ⲫ", "ⲫ"); ("Ⲩ", "ⲩ"); ("Ⲧ", "ⲧ"); ("Ⲥ", "ⲥ");
    ("Ⲣ", "ⲣ"); ("Ⲡ", "ⲡ"); ("Ⲟ", "ⲟ"); ("Ⲝ", "ⲝ"); ("Ⲛ", "ⲛ"); ("Ⲙ", "ⲙ");
    ("Ⲗ", "ⲗ"); ("Ⲕ", "ⲕ"); ("Ⲓ", "ⲓ"); ("Ⲑ", "ⲑ"); ("Ⲏ", "ⲏ"); ("Ⲍ", "ⲍ");
    ("Ⲋ", "ⲋ"); ("Ⲉ", "ⲉ"); ("Ⲇ", "ⲇ"); ("Ⲅ", "ⲅ"); ("Ⲃ", "ⲃ"); ("Ⲁ", "ⲁ");
    ("Ɀ", "ɀ"); ("Ȿ", "ȿ"); ("Ⱶ", "ⱶ"); ("Ⱳ", "ⱳ"); ("Ɒ", "ɒ"); ("Ɐ", "ɐ");
    ("Ɱ", "ɱ"); ("Ɑ", "ɑ"); ("Ⱬ", "ⱬ"); ("Ⱪ", "ⱪ"); ("Ⱨ", "ⱨ"); ("Ɽ", "ɽ");
    ("Ᵽ", "ᵽ"); ("Ɫ", "ɫ"); ("Ⱡ", "ⱡ"); ("Ⱟ", "ⱟ"); ("Ⱞ", "ⱞ"); ("Ⱝ", "ⱝ");
    ("Ⱜ", "ⱜ"); ("Ⱛ", "ⱛ"); ("Ⱚ", "ⱚ"); ("Ⱙ", "ⱙ"); ("Ⱘ", "ⱘ"); ("Ⱗ", "ⱗ");
    ("Ⱖ", "ⱖ"); ("Ⱕ", "ⱕ"); ("Ⱔ", "ⱔ"); ("Ⱓ", "ⱓ"); ("Ⱒ", "ⱒ"); ("Ⱑ", "ⱑ");
    ("Ⱐ", "ⱐ"); ("Ⱏ", "ⱏ"); ("Ⱎ", "ⱎ"); ("Ⱍ", "ⱍ"); ("Ⱌ", "ⱌ"); ("Ⱋ", "ⱋ");
    ("Ⱊ", "ⱊ"); ("Ⱉ", "ⱉ"); ("Ⱈ", "ⱈ"); ("Ⱇ", "ⱇ"); ("Ⱆ", "ⱆ"); ("Ⱅ", "ⱅ");
    ("Ⱄ", "ⱄ"); ("Ⱃ", "ⱃ"); ("Ⱂ", "ⱂ"); ("Ⱁ", "ⱁ"); ("Ⱀ", "ⱀ"); ("Ⰿ", "ⰿ");
    ("Ⰾ", "ⰾ"); ("Ⰽ", "ⰽ"); ("Ⰼ", "ⰼ"); ("Ⰻ", "ⰻ"); ("Ⰺ", "ⰺ"); ("Ⰹ", "ⰹ");
    ("Ⰸ", "ⰸ"); ("Ⰷ", "ⰷ"); ("Ⰶ", "ⰶ"); ("Ⰵ", "ⰵ"); ("Ⰴ", "ⰴ"); ("Ⰳ", "ⰳ");
    ("Ⰲ", "ⰲ"); ("Ⰱ", "ⰱ"); ("Ⰰ", "ⰰ"); ("Ⓩ", "ⓩ"); ("Ⓨ", "ⓨ"); ("Ⓧ", "ⓧ");
    ("Ⓦ", "ⓦ"); ("Ⓥ", "ⓥ"); ("Ⓤ", "ⓤ"); ("Ⓣ", "ⓣ"); ("Ⓢ", "ⓢ"); ("Ⓡ", "ⓡ");
    ("Ⓠ", "ⓠ"); ("Ⓟ", "ⓟ"); ("Ⓞ", "ⓞ"); ("Ⓝ", "ⓝ"); ("Ⓜ", "ⓜ"); ("Ⓛ", "ⓛ");
    ("Ⓚ", "ⓚ"); ("Ⓙ", "ⓙ"); ("Ⓘ", "ⓘ"); ("Ⓗ", "ⓗ"); ("Ⓖ", "ⓖ"); ("Ⓕ", "ⓕ");
    ("Ⓔ", "ⓔ"); ("Ⓓ", "ⓓ"); ("Ⓒ", "ⓒ"); ("Ⓑ", "ⓑ"); ("Ⓐ", "ⓐ"); ("Ↄ", "ↄ");
    ("Ⅿ", "ⅿ"); ("Ⅾ", "ⅾ"); ("Ⅽ", "ⅽ"); ("Ⅼ", "ⅼ"); ("Ⅻ", "ⅻ"); ("Ⅺ", "ⅺ");
    ("Ⅹ", "ⅹ"); ("Ⅸ", "ⅸ"); ("Ⅷ", "ⅷ"); ("Ⅶ", "ⅶ"); ("Ⅵ", "ⅵ"); ("Ⅴ", "ⅴ");
    ("Ⅳ", "ⅳ"); ("Ⅲ", "ⅲ"); ("Ⅱ", "ⅱ"); ("Ⅰ", "ⅰ"); ("Ⅎ", "ⅎ"); ("Å", "å");
    ("K", "k"); ("Ω", "ω"); ("ῼ", "ῳ"); ("Ώ", "ώ"); ("Ὼ", "ὼ"); ("Ό", "ό");
    ("Ὸ", "ὸ"); ("Ῥ", "ῥ"); ("Ύ", "ύ"); ("Ὺ", "ὺ"); ("Ῡ", "ῡ"); ("Ῠ", "ῠ");
    ("Ί", "ί"); ("Ὶ", "ὶ"); ("Ῑ", "ῑ"); ("Ῐ", "ῐ"); ("ῌ", "ῃ"); ("Ή", "ή");
    ("Ὴ", "ὴ"); ("Έ", "έ"); ("Ὲ", "ὲ"); ("ᾼ", "ᾳ"); ("Ά", "ά"); ("Ὰ", "ὰ");
    ("Ᾱ", "ᾱ"); ("Ᾰ", "ᾰ"); ("ᾯ", "ᾧ"); ("ᾮ", "ᾦ"); ("ᾭ", "ᾥ"); ("ᾬ", "ᾤ");
    ("ᾫ", "ᾣ"); ("ᾪ", "ᾢ"); ("ᾩ", "ᾡ"); ("ᾨ", "ᾠ"); ("ᾟ", "ᾗ"); ("ᾞ", "ᾖ");
    ("ᾝ", "ᾕ"); ("ᾜ", "ᾔ"); ("ᾛ", "ᾓ"); ("ᾚ", "ᾒ"); ("ᾙ", "ᾑ"); ("ᾘ", "ᾐ");
    ("ᾏ", "ᾇ"); ("ᾎ", "ᾆ"); ("ᾍ", "ᾅ"); ("ᾌ", "ᾄ"); ("ᾋ", "ᾃ"); ("ᾊ", "ᾂ");
    ("ᾉ", "ᾁ"); ("ᾈ", "ᾀ"); ("Ὧ", "ὧ"); ("Ὦ", "ὦ"); ("Ὥ", "ὥ"); ("Ὤ", "ὤ");
    ("Ὣ", "ὣ"); ("Ὢ", "ὢ"); ("Ὡ", "ὡ"); ("Ὠ", "ὠ"); ("Ὗ", "ὗ"); ("Ὕ", "ὕ");
    ("Ὓ", "ὓ"); ("Ὑ", "ὑ"); ("Ὅ", "ὅ"); ("Ὄ", "ὄ"); ("Ὃ", "ὃ"); ("Ὂ", "ὂ");
    ("Ὁ", "ὁ"); ("Ὀ", "ὀ"); ("Ἷ", "ἷ"); ("Ἶ", "ἶ"); ("Ἵ", "ἵ"); ("Ἴ", "ἴ");
    ("Ἳ", "ἳ"); ("Ἲ", "ἲ"); ("Ἱ", "ἱ"); ("Ἰ", "ἰ"); ("Ἧ", "ἧ"); ("Ἦ", "ἦ");
    ("Ἥ", "ἥ"); ("Ἤ", "ἤ"); ("Ἣ", "ἣ"); ("Ἢ", "ἢ"); ("Ἡ", "ἡ"); ("Ἠ", "ἠ");
    ("Ἕ", "ἕ"); ("Ἔ", "ἔ"); ("Ἓ", "ἓ"); ("Ἒ", "ἒ"); ("Ἑ", "ἑ"); ("Ἐ", "ἐ");
    ("Ἇ", "ἇ"); ("Ἆ", "ἆ"); ("Ἅ", "ἅ"); ("Ἄ", "ἄ"); ("Ἃ", "ἃ"); ("Ἂ", "ἂ");
    ("Ἁ", "ἁ"); ("Ἀ", "ἀ"); ("Ỿ", "ỿ"); ("Ỽ", "ỽ"); ("Ỻ", "ỻ"); ("Ỹ", "ỹ");
    ("Ỷ", "ỷ"); ("Ỵ", "ỵ"); ("Ỳ", "ỳ"); ("Ự", "ự"); ("Ữ", "ữ"); ("Ử", "ử");
    ("Ừ", "ừ"); ("Ứ", "ứ"); ("Ủ", "ủ"); ("Ụ", "ụ"); ("Ợ", "ợ"); ("Ỡ", "ỡ");
    ("Ở", "ở"); ("Ờ", "ờ"); ("Ớ", "ớ"); ("Ộ", "ộ"); ("Ỗ", "ỗ"); ("Ổ", "ổ");
    ("Ồ", "ồ"); ("Ố", "ố"); ("Ỏ", "ỏ"); ("Ọ", "ọ"); ("Ị", "ị"); ("Ỉ", "ỉ");
    ("Ệ", "ệ"); ("Ễ", "ễ"); ("Ể", "ể"); ("Ề", "ề"); ("Ế", "ế"); ("Ẽ", "ẽ");
    ("Ẻ", "ẻ"); ("Ẹ", "ẹ"); ("Ặ", "ặ"); ("Ẵ", "ẵ"); ("Ẳ", "ẳ"); ("Ằ", "ằ");
    ("Ắ", "ắ"); ("Ậ", "ậ"); ("Ẫ", "ẫ"); ("Ẩ", "ẩ"); ("Ầ", "ầ"); ("Ấ", "ấ");
    ("Ả", "ả"); ("Ạ", "ạ"); ("ẞ", "ß"); ("Ẕ", "ẕ"); ("Ẓ", "ẓ"); ("Ẑ", "ẑ");
    ("Ẏ", "ẏ"); ("Ẍ", "ẍ"); ("Ẋ", "ẋ"); ("Ẉ", "ẉ"); ("Ẇ", "ẇ"); ("Ẅ", "ẅ");
    ("Ẃ", "ẃ"); ("Ẁ", "ẁ"); ("Ṿ", "ṿ"); ("Ṽ", "ṽ"); ("Ṻ", "ṻ"); ("Ṹ", "ṹ");
    ("Ṷ", "ṷ"); ("Ṵ", "ṵ"); ("Ṳ", "ṳ"); ("Ṱ", "ṱ"); ("Ṯ", "ṯ"); ("Ṭ", "ṭ");
    ("Ṫ", "ṫ"); ("Ṩ", "ṩ"); ("Ṧ", "ṧ"); ("Ṥ", "ṥ"); ("Ṣ", "ṣ"); ("Ṡ", "ṡ");
    ("Ṟ", "ṟ"); ("Ṝ", "ṝ"); ("Ṛ", "ṛ"); ("Ṙ", "ṙ"); ("Ṗ", "ṗ"); ("Ṕ", "ṕ");
    ("Ṓ", "ṓ"); ("Ṑ", "ṑ"); ("Ṏ", "ṏ"); ("Ṍ", "ṍ"); ("Ṋ", "ṋ"); ("Ṉ", "ṉ");
    ("Ṇ", "ṇ"); ("Ṅ", "ṅ"); ("Ṃ", "ṃ"); ("Ṁ", "ṁ"); ("Ḿ", "ḿ"); ("Ḽ", "ḽ");
    ("Ḻ", "ḻ"); ("Ḹ", "ḹ"); ("Ḷ", "ḷ"); ("Ḵ", "ḵ"); ("Ḳ", "ḳ"); ("Ḱ", "ḱ");
    ("Ḯ", "ḯ"); ("Ḭ", "ḭ"); ("Ḫ", "ḫ"); ("Ḩ", "ḩ"); ("Ḧ", "ḧ"); ("Ḥ", "ḥ");
    ("Ḣ", "ḣ"); ("Ḡ", "ḡ"); ("Ḟ", "ḟ"); ("Ḝ", "ḝ"); ("Ḛ", "ḛ"); ("Ḙ", "ḙ");
    ("Ḗ", "ḗ"); ("Ḕ", "ḕ"); ("Ḓ", "ḓ"); ("Ḑ", "ḑ"); ("Ḏ", "ḏ"); ("Ḍ", "ḍ");
    ("Ḋ", "ḋ"); ("Ḉ", "ḉ"); ("Ḇ", "ḇ"); ("Ḅ", "ḅ"); ("Ḃ", "ḃ"); ("Ḁ", "ḁ");
    ("Ჿ", "ჿ"); ("Ჾ", "ჾ"); ("Ჽ", "ჽ"); ("Ჺ", "ჺ"); ("Ჹ", "ჹ"); ("Ჸ", "ჸ");
    ("Ჷ", "ჷ"); ("Ჶ", "ჶ"); ("Ჵ", "ჵ"); ("Ჴ", "ჴ"); ("Ჳ", "ჳ"); ("Ჲ", "ჲ");
    ("Ჱ", "ჱ"); ("Ჰ", "ჰ"); ("Ჯ", "ჯ"); ("Ხ", "ხ"); ("Ჭ", "ჭ"); ("Წ", "წ");
    ("Ძ", "ძ"); ("Ც", "ც"); ("Ჩ", "ჩ"); ("Შ", "შ"); ("Ყ", "ყ"); ("Ღ", "ღ");
    ("Ქ", "ქ"); ("Ფ", "ფ"); ("Უ", "უ"); ("Ტ", "ტ"); ("Ს", "ს"); ("Რ", "რ");
    ("Ჟ", "ჟ"); ("Პ", "პ"); ("Ო", "ო"); ("Ნ", "ნ"); ("Მ", "მ"); ("Ლ", "ლ");
    ("Კ", "კ"); ("Ი", "ი"); ("Თ", "თ"); ("Ზ", "ზ"); ("Ვ", "ვ"); ("Ე", "ე");
    ("Დ", "დ"); ("Გ", "გ"); ("Ბ", "ბ"); ("Ა", "ა"); ("Ᏽ", "ᏽ"); ("Ᏼ", "ᏼ");
    ("Ᏻ", "ᏻ"); ("Ᏺ", "ᏺ"); ("Ᏹ", "ᏹ"); ("Ᏸ", "ᏸ"); ("Ꮿ", "ꮿ"); ("Ꮾ", "ꮾ");
    ("Ꮽ", "ꮽ"); ("Ꮼ", "ꮼ"); ("Ꮻ", "ꮻ"); ("Ꮺ", "ꮺ"); ("Ꮹ", "ꮹ"); ("Ꮸ", "ꮸ");
    ("Ꮷ", "ꮷ"); ("Ꮶ", "ꮶ"); ("Ꮵ", "ꮵ"); ("Ꮴ", "ꮴ"); ("Ꮳ", "ꮳ"); ("Ꮲ", "ꮲ");
    ("Ꮱ", "ꮱ"); ("Ꮰ", "ꮰ"); ("Ꮯ", "ꮯ"); ("Ꮮ", "ꮮ"); ("Ꮭ", "ꮭ"); ("Ꮬ", "ꮬ");
    ("Ꮫ", "ꮫ"); ("Ꮪ", "ꮪ"); ("Ꮩ", "ꮩ"); ("Ꮨ", "ꮨ"); ("Ꮧ", "ꮧ"); ("Ꮦ", "ꮦ");
    ("Ꮥ", "ꮥ"); ("Ꮤ", "ꮤ"); ("Ꮣ", "ꮣ"); ("Ꮢ", "ꮢ"); ("Ꮡ", "ꮡ"); ("Ꮠ", "ꮠ");
    ("Ꮟ", "ꮟ"); ("Ꮞ", "ꮞ"); ("Ꮝ", "ꮝ"); ("Ꮜ", "ꮜ"); ("Ꮛ", "ꮛ"); ("Ꮚ", "ꮚ");
    ("Ꮙ", "ꮙ"); ("Ꮘ", "ꮘ"); ("Ꮗ", "ꮗ"); ("Ꮖ", "ꮖ"); ("Ꮕ", "ꮕ"); ("Ꮔ", "ꮔ");
    ("Ꮓ", "ꮓ"); ("Ꮒ", "ꮒ"); ("Ꮑ", "ꮑ"); ("Ꮐ", "ꮐ"); ("Ꮏ", "ꮏ"); ("Ꮎ", "ꮎ");
    ("Ꮍ", "ꮍ"); ("Ꮌ", "ꮌ"); ("Ꮋ", "ꮋ"); ("Ꮊ", "ꮊ"); ("Ꮉ", "ꮉ"); ("Ꮈ", "ꮈ");
    ("Ꮇ", "ꮇ"); ("Ꮆ", "ꮆ"); ("Ꮅ", "ꮅ"); ("Ꮄ", "ꮄ"); ("Ꮃ", "ꮃ"); ("Ꮂ", "ꮂ");
    ("Ꮁ", "ꮁ"); ("Ꮀ", "ꮀ"); ("Ꭿ", "ꭿ"); ("Ꭾ", "ꭾ"); ("Ꭽ", "ꭽ"); ("Ꭼ", "ꭼ");
    ("Ꭻ", "ꭻ"); ("Ꭺ", "ꭺ"); ("Ꭹ", "ꭹ"); ("Ꭸ", "ꭸ"); ("Ꭷ", "ꭷ"); ("Ꭶ", "ꭶ");
    ("Ꭵ", "ꭵ"); ("Ꭴ", "ꭴ"); ("Ꭳ", "ꭳ"); ("Ꭲ", "ꭲ"); ("Ꭱ", "ꭱ"); ("Ꭰ", "ꭰ");
    ("Ⴭ", "ⴭ"); ("Ⴧ", "ⴧ"); ("Ⴥ", "ⴥ"); ("Ⴤ", "ⴤ"); ("Ⴣ", "ⴣ"); ("Ⴢ", "ⴢ");
    ("Ⴡ", "ⴡ"); ("Ⴠ", "ⴠ"); ("Ⴟ", "ⴟ"); ("Ⴞ", "ⴞ"); ("Ⴝ", "ⴝ"); ("Ⴜ", "ⴜ");
    ("Ⴛ", "ⴛ"); ("Ⴚ", "ⴚ"); ("Ⴙ", "ⴙ"); ("Ⴘ", "ⴘ"); ("Ⴗ", "ⴗ"); ("Ⴖ", "ⴖ");
    ("Ⴕ", "ⴕ"); ("Ⴔ", "ⴔ"); ("Ⴓ", "ⴓ"); ("Ⴒ", "ⴒ"); ("Ⴑ", "ⴑ"); ("Ⴐ", "ⴐ");
    ("Ⴏ", "ⴏ"); ("Ⴎ", "ⴎ"); ("Ⴍ", "ⴍ"); ("Ⴌ", "ⴌ"); ("Ⴋ", "ⴋ"); ("Ⴊ", "ⴊ");
    ("Ⴉ", "ⴉ"); ("Ⴈ", "ⴈ"); ("Ⴇ", "ⴇ"); ("Ⴆ", "ⴆ"); ("Ⴅ", "ⴅ"); ("Ⴄ", "ⴄ");
    ("Ⴃ", "ⴃ"); ("Ⴂ", "ⴂ"); ("Ⴁ", "ⴁ"); ("Ⴀ", "ⴀ"); ("Ֆ", "ֆ"); ("Օ", "օ");
    ("Ք", "ք"); ("Փ", "փ"); ("Ւ", "ւ"); ("Ց", "ց"); ("Ր", "ր"); ("Տ", "տ");
    ("Վ", "վ"); ("Ս", "ս"); ("Ռ", "ռ"); ("Ջ", "ջ"); ("Պ", "պ"); ("Չ", "չ");
    ("Ո", "ո"); ("Շ", "շ"); ("Ն", "ն"); ("Յ", "յ"); ("Մ", "մ"); ("Ճ", "ճ");
    ("Ղ", "ղ"); ("Ձ", "ձ"); ("Հ", "հ"); ("Կ", "կ"); ("Ծ", "ծ"); ("Խ", "խ");
    ("Լ", "լ"); ("Ի", "ի"); ("Ժ", "ժ"); ("Թ", "թ"); ("Ը", "ը"); ("Է", "է");
    ("Զ", "զ"); ("Ե", "ե"); ("Դ", "դ"); ("Գ", "գ"); ("Բ", "բ"); ("Ա", "ա");
    ("Ԯ", "ԯ"); ("Ԭ", "ԭ"); ("Ԫ", "ԫ"); ("Ԩ", "ԩ"); ("Ԧ", "ԧ"); ("Ԥ", "ԥ");
    ("Ԣ", "ԣ"); ("Ԡ", "ԡ"); ("Ԟ", "ԟ"); ("Ԝ", "ԝ"); ("Ԛ", "ԛ"); ("Ԙ", "ԙ");
    ("Ԗ", "ԗ"); ("Ԕ", "ԕ"); ("Ԓ", "ԓ"); ("Ԑ", "ԑ"); ("Ԏ", "ԏ"); ("Ԍ", "ԍ");
    ("Ԋ", "ԋ"); ("Ԉ", "ԉ"); ("Ԇ", "ԇ"); ("Ԅ", "ԅ"); ("Ԃ", "ԃ"); ("Ԁ", "ԁ");
    ("Ӿ", "ӿ"); ("Ӽ", "ӽ"); ("Ӻ", "ӻ"); ("Ӹ", "ӹ"); ("Ӷ", "ӷ"); ("Ӵ", "ӵ");
    ("Ӳ", "ӳ"); ("Ӱ", "ӱ"); ("Ӯ", "ӯ"); ("Ӭ", "ӭ"); ("Ӫ", "ӫ"); ("Ө", "ө");
    ("Ӧ", "ӧ"); ("Ӥ", "ӥ"); ("Ӣ", "ӣ"); ("Ӡ", "ӡ"); ("Ӟ", "ӟ"); ("Ӝ", "ӝ");
    ("Ӛ", "ӛ"); ("Ә", "ә"); ("Ӗ", "ӗ"); ("Ӕ", "ӕ"); ("Ӓ", "ӓ"); ("Ӑ", "ӑ");
    ("Ӎ", "ӎ"); ("Ӌ", "ӌ"); ("Ӊ", "ӊ"); ("Ӈ", "ӈ"); ("Ӆ", "ӆ"); ("Ӄ", "ӄ");
    ("Ӂ", "ӂ"); ("Ӏ", "ӏ"); ("Ҿ", "ҿ"); ("Ҽ", "ҽ"); ("Һ", "һ"); ("Ҹ", "ҹ");
    ("Ҷ", "ҷ"); ("Ҵ", "ҵ"); ("Ҳ", "ҳ"); ("Ұ", "ұ"); ("Ү", "ү"); ("Ҭ", "ҭ");
    ("Ҫ", "ҫ"); ("Ҩ", "ҩ"); ("Ҧ", "ҧ"); ("Ҥ", "ҥ"); ("Ң", "ң"); ("Ҡ", "ҡ");
    ("Ҟ", "ҟ"); ("Ҝ", "ҝ"); ("Қ", "қ"); ("Ҙ", "ҙ"); ("Җ", "җ"); ("Ҕ", "ҕ");
    ("Ғ", "ғ"); ("Ґ", "ґ"); ("Ҏ", "ҏ"); ("Ҍ", "ҍ"); ("Ҋ", "ҋ"); ("Ҁ", "ҁ");
    ("Ѿ", "ѿ"); ("Ѽ", "ѽ"); ("Ѻ", "ѻ"); ("Ѹ", "ѹ"); ("Ѷ", "ѷ"); ("Ѵ", "ѵ");
    ("Ѳ", "ѳ"); ("Ѱ", "ѱ"); ("Ѯ", "ѯ"); ("Ѭ", "ѭ"); ("Ѫ", "ѫ"); ("Ѩ", "ѩ");
    ("Ѧ", "ѧ"); ("Ѥ", "ѥ"); ("Ѣ", "ѣ"); ("Ѡ", "ѡ"); ("Я", "я"); ("Ю", "ю");
    ("Э", "э"); ("Ь", "ь"); ("Ы", "ы"); ("Ъ", "ъ"); ("Щ", "щ"); ("Ш", "ш");
    ("Ч", "ч"); ("Ц", "ц"); ("Х", "х"); ("Ф", "ф"); ("У", "у"); ("Т", "т");
    ("С", "с"); ("Р", "р"); ("П", "п"); ("О", "о"); ("Н", "н"); ("М", "м");
    ("Л", "л"); ("К", "к"); ("Й", "й"); ("И", "и"); ("З", "з"); ("Ж", "ж");
    ("Е", "е"); ("Д", "д"); ("Г", "г"); ("В", "в"); ("Б", "б"); ("А", "а");
    ("Џ", "џ"); ("Ў", "ў"); ("Ѝ", "ѝ"); ("Ќ", "ќ"); ("Ћ", "ћ"); ("Њ", "њ");
    ("Љ", "љ"); ("Ј", "ј"); ("Ї", "ї"); ("І", "і"); ("Ѕ", "ѕ"); ("Є", "є");
    ("Ѓ", "ѓ"); ("Ђ", "ђ"); ("Ё", "ё"); ("Ѐ", "ѐ"); ("Ͽ", "ͽ"); ("Ͼ", "ͼ");
    ("Ͻ", "ͻ"); ("Ϻ", "ϻ"); ("Ϲ", "ϲ"); ("Ϸ", "ϸ"); ("ϴ", "θ"); ("Ϯ", "ϯ");
    ("Ϭ", "ϭ"); ("Ϫ", "ϫ"); ("Ϩ", "ϩ"); ("Ϧ", "ϧ"); ("Ϥ", "ϥ"); ("Ϣ", "ϣ");
    ("Ϡ", "ϡ"); ("Ϟ", "ϟ"); ("Ϝ", "ϝ"); ("Ϛ", "ϛ"); ("Ϙ", "ϙ"); ("Ϗ", "ϗ");
    ("Ϋ", "ϋ"); ("Ϊ", "ϊ"); ("Ω", "ω"); ("Ψ", "ψ"); ("Χ", "χ"); ("Φ", "φ");
    ("Υ", "υ"); ("Τ", "τ"); ("Ρ", "ρ"); ("Π", "π"); ("Ο", "ο"); ("Ξ", "ξ");
    ("Ν", "ν"); ("Μ", "μ"); ("Λ", "λ"); ("Κ", "κ"); ("Ι", "ι"); ("Θ", "θ");
    ("Η", "η"); ("Ζ", "ζ"); ("Ε", "ε"); ("Δ", "δ"); ("Γ", "γ"); ("Β", "β");
    ("Α", "α"); ("Ώ", "ώ"); ("Ύ", "ύ"); ("Ό", "ό"); ("Ί", "ί"); ("Ή", "ή");
    ("Έ", "έ"); ("Ά", "ά"); ("Ϳ", "ϳ"); ("Ͷ", "ͷ"); ("Ͳ", "ͳ"); ("Ͱ", "ͱ");
    ("Ɏ", "ɏ"); ("Ɍ", "ɍ"); ("Ɋ", "ɋ"); ("Ɉ", "ɉ"); ("Ɇ", "ɇ"); ("Ʌ", "ʌ");
    ("Ʉ", "ʉ"); ("Ƀ", "ƀ"); ("Ɂ", "ɂ"); ("Ⱦ", "ⱦ"); ("Ƚ", "ƚ"); ("Ȼ", "ȼ");
    ("Ⱥ", "ⱥ"); ("Ȳ", "ȳ"); ("Ȱ", "ȱ"); ("Ȯ", "ȯ"); ("Ȭ", "ȭ"); ("Ȫ", "ȫ");
    ("Ȩ", "ȩ"); ("Ȧ", "ȧ"); ("Ȥ", "ȥ"); ("Ȣ", "ȣ"); ("Ƞ", "ƞ"); ("Ȟ", "ȟ");
    ("Ȝ", "ȝ"); ("Ț", "ț"); ("Ș", "ș"); ("Ȗ", "ȗ"); ("Ȕ", "ȕ"); ("Ȓ", "ȓ");
    ("Ȑ", "ȑ"); ("Ȏ", "ȏ"); ("Ȍ", "ȍ"); ("Ȋ", "ȋ"); ("Ȉ", "ȉ"); ("Ȇ", "ȇ");
    ("Ȅ", "ȅ"); ("Ȃ", "ȃ"); ("Ȁ", "ȁ"); ("Ǿ", "ǿ"); ("Ǽ", "ǽ"); ("Ǻ", "ǻ");
    ("Ǹ", "ǹ"); ("Ƿ", "ƿ"); ("Ƕ", "ƕ"); ("Ǵ", "ǵ"); ("ǲ", "ǳ"); ("Ǳ", "ǳ");
    ("Ǯ", "ǯ"); ("Ǭ", "ǭ"); ("Ǫ", "ǫ"); ("Ǩ", "ǩ"); ("Ǧ", "ǧ"); ("Ǥ", "ǥ");
    ("Ǣ", "ǣ"); ("Ǡ", "ǡ"); ("Ǟ", "ǟ"); ("Ǜ", "ǜ"); ("Ǚ", "ǚ"); ("Ǘ", "ǘ");
    ("Ǖ", "ǖ"); ("Ǔ", "ǔ"); ("Ǒ", "ǒ"); ("Ǐ", "ǐ"); ("Ǎ", "ǎ"); ("ǋ", "ǌ");
    ("Ǌ", "ǌ"); ("ǈ", "ǉ"); ("Ǉ", "ǉ"); ("ǅ", "ǆ"); ("Ǆ", "ǆ"); ("Ƽ", "ƽ");
    ("Ƹ", "ƹ"); ("Ʒ", "ʒ"); ("Ƶ", "ƶ"); ("Ƴ", "ƴ"); ("Ʋ", "ʋ"); ("Ʊ", "ʊ");
    ("Ư", "ư"); ("Ʈ", "ʈ"); ("Ƭ", "ƭ"); ("Ʃ", "ʃ"); ("Ƨ", "ƨ"); ("Ʀ", "ʀ");
    ("Ƥ", "ƥ"); ("Ƣ", "ƣ"); ("Ơ", "ơ"); ("Ɵ", "ɵ"); ("Ɲ", "ɲ"); ("Ɯ", "ɯ");
    ("Ƙ", "ƙ"); ("Ɨ", "ɨ"); ("Ɩ", "ɩ"); ("Ɣ", "ɣ"); ("Ɠ", "ɠ"); ("Ƒ", "ƒ");
    ("Ɛ", "ɛ"); ("Ə", "ə"); ("Ǝ", "ǝ"); ("Ƌ", "ƌ"); ("Ɗ", "ɗ"); ("Ɖ", "ɖ");
    ("Ƈ", "ƈ"); ("Ɔ", "ɔ"); ("Ƅ", "ƅ"); ("Ƃ", "ƃ"); ("Ɓ", "ɓ"); ("Ž", "ž");
    ("Ż", "ż"); ("Ź", "ź"); ("Ÿ", "ÿ"); ("Ŷ", "ŷ"); ("Ŵ", "ŵ"); ("Ų", "ų");
    ("Ű", "ű"); ("Ů", "ů"); ("Ŭ", "ŭ"); ("Ū", "ū"); ("Ũ", "ũ"); ("Ŧ", "ŧ");
    ("Ť", "ť"); ("Ţ", "ţ"); ("Š", "š"); ("Ş", "ş"); ("Ŝ", "ŝ"); ("Ś", "ś");
    ("Ř", "ř"); ("Ŗ", "ŗ"); ("Ŕ", "ŕ"); ("Œ", "œ"); ("Ő", "ő"); ("Ŏ", "ŏ");
    ("Ō", "ō"); ("Ŋ", "ŋ"); ("Ň", "ň"); ("Ņ", "ņ"); ("Ń", "ń"); ("Ł", "ł");
    ("Ŀ", "ŀ"); ("Ľ", "ľ"); ("Ļ", "ļ"); ("Ĺ", "ĺ"); ("Ķ", "ķ"); ("Ĵ", "ĵ");
    ("Ĳ", "ĳ"); ("İ", "i̇"); ("Į", "į"); ("Ĭ", "ĭ"); ("Ī", "ī"); ("Ĩ", "ĩ");
    ("Ħ", "ħ"); ("Ĥ", "ĥ"); ("Ģ", "ģ"); ("Ġ", "ġ"); ("Ğ", "ğ"); ("Ĝ", "ĝ");
    ("Ě", "ě"); ("Ę", "ę"); ("Ė", "ė"); ("Ĕ", "ĕ"); ("Ē", "ē"); ("Đ", "đ");
    ("Ď", "ď"); ("Č", "č"); ("Ċ", "ċ"); ("Ĉ", "ĉ"); ("Ć", "ć"); ("Ą", "ą");
    ("Ă", "ă"); ("Ā", "ā"); ("Þ", "þ"); ("Ý", "ý"); ("Ü", "ü"); ("Û", "û");
    ("Ú", "ú"); ("Ù", "ù"); ("Ø", "ø"); ("Ö", "ö"); ("Õ", "õ"); ("Ô", "ô");
    ("Ó", "ó"); ("Ò", "ò"); ("Ñ", "ñ"); ("Ð", "ð"); ("Ï", "ï"); ("Î", "î");
    ("Í", "í"); ("Ì", "ì"); ("Ë", "ë"); ("Ê", "ê"); ("É", "é"); ("È", "è");
    ("Ç", "ç"); ("Æ", "æ"); ("Å", "å"); ("Ä", "ä"); ("Ã", "ã"); ("Â", "â");
    ("Á", "á"); ("À", "à"); ("Z", "z"); ("Y", "y"); ("X", "x"); ("W", "w");
    ("V", "v"); ("U", "u"); ("T", "t"); ("S", "s"); ("R", "r"); ("Q", "q");
    ("P", "p"); ("O", "o"); ("N", "n"); ("M", "m"); ("L", "l"); ("K", "k");
    ("J", "j"); ("I", "i"); ("H", "h"); ("G", "g"); ("F", "f"); ("E", "e");
    ("D", "d"); ("C", "c"); ("B", "b"); ("A", "a") ].

(** The characters that are case-ignorable. *)
Definition case_ignorable_ranges : list (N * N) :=
  [ (39, 39); (46, 46); (58, 58); (94, 94); (96, 96);
    (168, 168); (173, 173); (175, 175); (180, 180); (183, 184);
    (688, 879); (884, 885); (890, 890); (900, 901); (903, 903);
    (1155, 1161); (1369, 1369); (1375, 1375); (1425, 1469); (1471, 1471);
    (1473, 1474); (1476, 1477); (1479, 1479); (1524, 1524); (1536, 1541);
    (1552, 1562); (1564, 1564); (1600, 1600); (1611, 1631); (1648, 1648);
    (1750, 1757); (1759, 1768); (1770, 1773); (1807, 1807); (1809, 1809);
    (1840, 1866); (1958, 1968); (2027, 2037); (2042, 2042); (2045, 2045);
    (2070, 2093); (2137, 2139); (2184, 2184); (2192, 2193); (2200, 2207);
    (2249, 2306); (2362, 2362); (2364, 2364); (2369, 2376); (2381, 2381);
    (2385, 2391); (2402, 2403); (2417, 2417); (2433, 2433); (2492, 2492);
    (2497, 2500); (2509, 2509); (2530, 2531); (2558, 2558); (2561, 2562);
    (2620, 2620); (2625, 2626); (2631, 2632); (2635, 2637); (2641, 2641);
    (2672, 2673); (2677, 2677); (2689, 2690); (2748, 2748); (2753, 2757);
    (2759, 2760); (2765, 2765); (2786, 2787); (2810, 2815); (2817, 2817);
    (2876, 2876); (2879, 2879); (2881, 2884); (2893, 2893); (2901, 2902);
    (2914, 2915); (2946, 2946); (3008, 3008); (3021, 3021); (3072, 3072);
    (3076, 3076); (3132, 3132); (3134, 3136); (3142, 3144); (3146, 3149);
    (3157, 3158); (3170, 3171); (3201, 3201); (3260, 3260); (3263, 3263);
    (3270, 3270); (3276, 3277); (3298, 3299); (3328, 3329); (3387, 3388);
    (3393, 3396); (3405, 3405); (3426, 3427); (3457, 3457); (3530, 3530);
    (3538, 3540); (3542, 3542); (3633, 3633); (3636, 3642); (3654, 3662);
    (3761, 3761); (3764, 3772); (3782, 3782); (3784, 3789); (3864, 3865);
    (3893, 3893); (3895, 3895); (3897, 3897); (3953, 3966); (3968, 3972);
    (3974, 3975); (3981, 3991); (3993, 4028); (4038, 4038); (4141, 4144);
    (4146, 4151); (4153, 4154); (4157, 4158); (4184, 4185); (4190, 4192);
    (4209, 4212); (4226, 4226); (4229, 4230); (4237, 4237); (4253, 4253);
    (4348, 4348); (4957, 4959); (5906, 5908); (5938, 5939); (5970, 5971);
    (6002, 6003); (6068, 6069); (6071, 6077); (6086, 6086); (6089, 6099);
    (6103, 6103); (6109, 6109); (6155, 6159); (6211, 6211); (6277, 6278);
    (6313, 6313); (6432, 6434); (6439, 6440); (6450, 6450); (6457, 6459);
    (6679, 6680); (6683, 6683); (6742, 6742); (6744, 6750); (6752, 6752);
    (6754, 6754); (6757, 6764); (6771, 6780); (6783, 6783); (6823, 6823);
    (6832, 6862); (6912, 6915); (6964, 6964); (6966, 6970); (6972, 6972);
    (6978, 6978); (7019, 7027); (7040, 7041); (7074, 7077); (7080, 7081);
    (7083, 7085); (7142, 7142); (7144, 7145); (7149, 7149); (7151, 7153);
    (7212, 7219); (7222, 7223); (7288, 7293); (7376, 7378); (7380, 7392);
    (7394, 7400); (7405, 7405); (7412, 7412); (7416, 7417); (7468, 7530);
    (7544, 7544); (7579, 7679); (8125, 8125); (8127, 8129); (8141, 8143);
    (8157, 8159); (8173, 8175); (8189, 8190); (8203, 8207); (8216, 8217);
    (8228, 8228); (8231, 8231); (8234, 8238); (8288, 8292); (8294, 8303);
    (8305, 8305); (8319, 8319); (8336, 8348); (8400, 8432); (11388, 11389);
    (11503, 11505); (11631, 11631); (11647, 11647); (11744, 11775); (11823, 11823);
    (12293, 12293); (12330, 12333); (12337, 12341); (12347, 12347); (12441, 12446);
    (12540, 12542); (40981, 40981); (42232, 42237); (42508, 42508); (42607, 42610);
    (42612, 42621); (42623, 42623); (42652, 42655); (42736, 42737); (42752, 42785);
    (42864, 42864); (42888, 42890); (42994, 42996); (43000, 43001); (43010, 43010);
    (43014, 43014); (43019, 43019); (43045, 43046); (43052, 43052); (43204, 43205);
    (43232, 43249); (43263, 43263); (43302, 43309); (43335, 43345); (43392, 43394);
    (43443, 43443); (43446, 43449); (43452, 43453); (43471, 43471); (43493, 43494);
    (43561, 43566); (43569, 43570); (43573, 43574); (43587, 43587); (43596, 43596);
    (43632, 43632); (43644, 43644); (43696, 43696); (43698, 43700); (43703, 43704);
    (43710, 43711); (43713, 43713); (43741, 43741); (43756, 43757); (43763, 43764);
    (43766, 43766); (43867, 43871); (43881, 43883); (44005, 44005); (44008, 44008);
    (44013, 44013); (64286, 64286); (64434, 64450); (65024, 65039); (65043, 65043);
    (65056, 65071); (65106, 65106); (65109, 65109); (65279, 65279); (65287, 65287);
    (65294, 65294); (65306, 65306); (65342, 65342); (65344, 65344); (65392, 65392);
    (65438, 65439); (65507, 65507); (65529, 65531); (66045, 66045); (66272, 66272);
    (66422, 66426); (67456, 67461); (67463, 67504); (67506, 67514); (68097, 68099);
    (68101, 68102); (68108, 68111); (68152, 68154); (68159, 68159); (68325, 68326);
    (68900, 68903); (69291, 69292); (69446, 69456); (69506, 69509); (69633, 69633);
    (69688, 69702); (69744, 69744); (69747, 69748); (69759, 69761); (69811, 69814);
    (69817, 69818); (69821, 69821); (69826, 69826); (69837, 69837); (69888, 69890);
    (69927, 69931); (69933, 69940); (70003, 70003); (70016, 70017); (70070, 70078);
    (70089, 70092); (70095, 70095); (70191, 70193); (70196, 70196); (70198, 70199);
    (70206, 70206); (70367, 70367); (70371, 70378); (70400, 70401); (70459, 70460);
    (70464, 70464); (70502, 70508); (70512, 70516); (70712, 70719); (70722, 70724);
    (70726, 70726); (70750, 70750); (70835, 70840); (70842, 70842); (70847, 70848);
    (70850, 70851); (71090, 71093); (71100, 71101); (71103, 71104); (71132, 71133);
    (71219, 71226); (71229, 71229); (71231, 71232); (71339, 71339); (71341, 71341);
    (71344, 71349); (71351, 71351); (71453, 71455); (71458, 71461); (71463, 71467);
    (71727, 71735); (71737, 71738); (71995, 71996); (71998, 71998); (72003, 72003);
    (72148, 72151); (72154, 72155); (72160, 72160); (72193, 72202); (72243, 72248);
    (72251, 72254); (72263, 72263); (72273, 72278); (72281, 72283); (72330, 72342);
    (72344, 72345); (72752, 72758); (72760, 72765); (72767, 72767); (72850, 72871);
    (72874, 72880); (72882, 72883); (72885, 72886); (73009, 73014); (73018, 73018);
    (73020, 73021); (73023, 73029); (73031, 73031); (73104, 73105); (73109, 73109);
    (73111, 73111); (73459, 73460); (78896, 78904); (92912, 92916); (92976, 92982);
    (92992, 92995); (94031, 94031); (94095, 94111); (94176, 94177); (94179, 94180);
    (110576, 110579); (110581, 110587); (110589, 110590); (113821, 113822); (113824, 113827);
    (118528, 118573); (118576, 118598); (119143, 119145); (119155, 119170); (119173, 119179);
    (119210, 119213); (119362, 119364); (121344, 121398); (121403, 121452); (121461, 121461);
    (121476, 121476); (121499, 121503); (121505, 121519); (122880, 122886); (122888, 122904);
    (122907, 122913); (122915, 122916); (122918, 122922); (123184, 123197); (123566, 123566);
    (123628, 123631); (125136, 125142); (125252, 125259); (127995, 127999); (917505, 917505);
    (917536, 917631); (917760, 917999) ]%N.

(** The characters that are cased, among those that are not
    case-ignorable. *)
Definition cased_ranges : list (N * N) :=
  [ (65, 90); (97, 122); (170, 170); (181, 181); (186, 186);
    (192, 214); (216, 246); (248, 442); (444, 447); (452, 659);
    (661, 687); (880, 883); (886, 887); (891, 893); (895, 895);
    (902, 902); (904, 906); (908, 908); (910, 929); (931, 1013);
    (1015, 1153); (1162, 1327); (1329, 1366); (1376, 1416); (4256, 4293);
    (4295, 4295); (4301, 4301); (4304, 4346); (4349, 4351); (5024, 5109);
    (5112, 5117); (7296, 7304); (7312, 7354); (7357, 7359); (7424, 7467);
    (7531, 7543); (7545, 7578); (7680, 7957); (7960, 7965); (7968, 8005);
    (8008, 8013); (8016, 8023); (8025, 8025); (8027, 8027); (8029, 8029);
    (8031, 8061); (8064, 8116); (8118, 8124); (8126, 8126); (8130, 8132);
    (8134, 8140); (8144, 8147); (8150, 8155); (8160, 8172); (8178, 8180);
    (8182, 8188); (8450, 8450); (8455, 8455); (8458, 8467); (8469, 8469);
    (8473, 8477); (8484, 8484); (8486, 8486); (8488, 8488); (8490, 8493);
    (8495, 8500); (8505, 8505); (8508, 8511); (8517, 8521); (8526, 8526);
    (8544, 8575); (8579, 8580); (9398, 9449); (11264, 11387); (11390, 11492);
    (11499, 11502); (11506, 11507); (11520, 11557); (11559, 11559); (11565, 11565);
    (42560, 42605); (42624, 42651); (42786, 42863); (42865, 42887); (42891, 42894);
    (42896, 42954); (42960, 42961); (42963, 42963); (42965, 42969); (42997, 42998);
    (43002, 43002); (43824, 43866); (43872, 43880); (43888, 43967); (64256, 64262);
    (64275, 64279); (65313, 65338); (65345, 65370); (66560, 66639); (66736, 66771);
    (66776, 66811); (66928, 66938); (66940, 66954); (66956, 66962); (66964, 66965);
    (66967, 66977); (66979, 66993); (66995, 67001); (67003, 67004); (68736, 68786);
    (68800, 68850); (71840, 71903); (93760, 93823); (119808, 119892); (119894, 119964);
    (119966, 119967); (119970, 119970); (119973, 119974); (119977, 119980); (119982, 119993);
    (119995, 119995); (119997, 120003); (120005, 120069); (120071, 120074); (120077, 120084);
    (120086, 120092); (120094, 120121); (120123, 120126); (120128, 120132); (120134, 120134);
    (120138, 120144); (120146, 120485); (120488, 120512); (120514, 120538); (120540, 120570);
    (120572, 120596); (120598, 120628); (120630, 120654); (120656, 120686); (120688, 120712);
    (120714, 120744); (120746, 120770); (120772, 120779); (122624, 122633); (122635, 122654);
    (125184, 125251); (127280, 127305); (127312, 127337); (127344, 127369) ]%N.

Definition case_ignorable (u : string) : bool :=
  in_ranges case_ignorable_ranges (codepoint u).

(** Whether a character that is not case-ignorable is cased. *)
Definition cased (u : string) : bool :=
  in_ranges cased_ranges (codepoint u).

Fixpoint assoc (table : list (string * string)) (u : string) : option string :=
  match table with
  | [] => None
  | (k, v) :: rest => if String.eqb k u then Some v else assoc rest u
  end.

(** The lower case of one character other than the capital sigma. *)
Definition lower_char (u : string) : string :=
  default u (assoc lower_table u).

Fixpoint skip_ignorable (us : list string) : list string :=
  match us with
  | [] => []
  | u :: rest => if case_ignorable u then skip_ignorable rest else us
  end.

(** A capital sigma is final when, case-ignorable characters apart, a cased
    character precedes it and none follows it; [before] lists the
    preceding characters from the nearest on. *)
Definition final_sigma (before after : list string) : bool :=
  match skip_ignorable before with
  | [] => false
  | c :: _ =>
      cased c &&
      match skip_ignorable after with
      | [] => true
      | c' :: _ => negb (cased c')
      end
  end.

Definition capital_sigma : string := "Σ".

Fixpoint lower_chars (before us : list string) : list string :=
  match us with
  | [] => []
  | u :: rest =>
      (if String.eqb u capital_sigma
       then (if final_sigma before rest then "ς" else "σ")
       else lower_char u)
      :: lower_chars (u :: before) rest
  end.

(** [s.lower()] *)
Definition lower (s : string) : string :=
  unchars (lower_chars [] (chars s)).

Fixpoint lstrip_chars (us : list string) : list string :=
  match us with
  | [] => []
  | u :: rest => if isspace u then lstrip_chars rest else us
  end.

Fixpoint rstrip_chars (us : list string) : list string :=
  match us with
  | [] => []
  | u :: rest =>
      match rstrip_chars rest with
      | [] => if isspace u then [] else [u]
      | r => u :: r
      end
  end.

(** [s.strip()]: whitespace is removed at both ends. *)
Definition strip (s : string) : string :=
  unchars (rstrip_chars (lstrip_chars (chars s))).

(** [s.split(sep)] for a separator of one character: always at least one
    piece, empty pieces are kept. *)
Fixpoint split (sep : ascii) (s : string) : list string :=
  match s with
  | EmptyString => [EmptyString]
  | String c s' =>
      if Ascii.eqb c sep then EmptyString :: split sep s'
      else match split sep s' with
           | [] => [String c EmptyString]
           | p :: ps => String c p :: ps
           end
  end.

(** [sep.join(l)] *)
Fixpoint join (sep : string) (l : list string) : string :=
  match l with
  | [] => EmptyString
  | [x] => x
  | x :: xs => x +:+ sep +:+ join sep xs
  end.

(** [s.startswith(p)] *)
Fixpoint startswith (p s : string) : bool :=
  match p, s with
  | EmptyString, _ => true
  | String _ _, EmptyString => false
  | String a p', String b s' => Ascii.eqb a b && startswith p' s'
  end.

(** [sub in s]: [sub] starts at some position of [s]. *)
Fixpoint contains (sub s : string) : bool :=
  startswith sub s ||
  match s with
  | EmptyString => false
  | String _ s' => contains sub s'
  end.

(** Truthiness of a value that is [None] or a [str]: [not v] holds for
    [None] and for the empty string. *)
Definition truthy (v : option string) : bool :=
  match v with
  | None => false
  | Some EmptyString => false
  | Some (String _ _) => true
  end.

End Py.

(** ** The rule engine: [suggest_rule_based] *)

Definition colors : list string :=
  ["red"; "blue"; "green"; "black"; "white"; "gray"; "yellow"; "pink"].

(** [[c for c in colors if c in clothes_text.lower()]] *)
Definition detected_colors (clothes_text : string) : list string :=
  filter (λ c, Py.contains c (Py.lower clothes_text) = true) colors.

(** [[item.strip().lower() for item in clothes_text.split(',')]] *)
Definition items (clothes_text : string) : list string :=
  (λ item, Py.lower (Py.strip item)) <$> Py.split "," clothes_text.

(** The dictionary [categories] as the program initialises it. *)
Definition categories0 : gmap string (list string) :=
  <["tops" := []]> (<["bottoms" := []]> (<["dresses" := []]>
  (<["outer" := []]> (<["shoes" := []]> (<["accessories" := []]> ∅))))).

(** [categories[k].append(item)] *)
Definition append_to (k item : string) (categories : gmap string (list string))
  : gmap string (list string) :=
  alter (λ l, l ++ [item]) k categories.

(** One iteration of the categorisation loop: the [if]/[elif] cascade. *)
Definition categorize_step (categories : gmap string (list string))
    (item : string) : gmap string (list string) :=
  if Py.contains "shirt" item || Py.contains "top" item
  then append_to "tops" item categories
  else if Py.contains "jeans" item || Py.contains "pants" item
          || Py.contains "skirt" item
  then append_to "bottoms" item categories
  else if Py.contains "dress" item
  then append_to "dresses" item categories
  else if Py.contains "jacket" item || Py.contains "coat" item
  then append_to "outer" item categories
  else if Py.contains "shoes" item || Py.contains "sneakers" item
          || Py.contains "boots" item
  then append_to "shoes" item categories
  else append_to "accessories" item categories.

(** [for item in items: ...] starting from the six empty lists. *)
Definition categorize (its : list string) : gmap string (list string) :=
  foldl categorize_step categories0 its.

(** [categories[k]] *)
Definition bucket (categories : gmap string (list string)) (k : string)
  : list string :=
  default [] (categories !! k).

(** The event cascade: the triple [(outfit, color_tip, accessories)] that
    the branch taken assigns. *)
Definition event_templates (event : string) : string * string * string :=
  let event := Py.lower event in
  if Py.contains "interview" event then
    ("Professional: Button-up shirt with slacks or skirt.",
     "Neutral colors (black, navy, gray).",
     "Minimal: Watch, simple earrings, polished shoes.")
  else if Py.contains "party" event then
    ("Fun and vibrant: Stylish top with jeans.",
     "Bright or metallic colors to stand out.",
     "Statement jewelry, clutch, heels or boots.")
  else if Py.contains "college" event then
    ("Casual: Jeans with t-shirt or hoodie.",
     "Mix casual colors; earth tones for relaxed vibe.",
     "Backpack, sneakers, cap or scarf.")
  else if Py.contains "wedding" event then
    ("Elegant dress or suit.",
     "Pastels or jewel tones.",
     "Delicate jewelry, dress shoes, small bag.")
  else
    ("Comfortable and confident: Mix and match your clothes.",
     "Neutrals work for any occasion.",
     "Keep it simple.").

(** Truthiness of a list: [if l:] holds for a list that is not empty. *)
Definition nonempty {A : Type} (l : list A) : bool :=
  match l with [] => false | _ :: _ => true end.

(** [color_tip] after the personalisation step. *)
Definition color_tip_line (event clothes_text : string) : string :=
  let color_tip := snd (fst (event_templates event)) in
  let detected := detected_colors clothes_text in
  if nonempty detected
  then color_tip +:+ " Detected: " +:+ Py.join ", " detected +:+ "."
  else color_tip.

(** [outfit] after the personalisation step. *)
Definition outfit_line (event clothes_text : string) : string :=
  let outfit := fst (fst (event_templates event)) in
  let categories := categorize (items clothes_text) in
  if nonempty (bucket categories "tops")
     || nonempty (bucket categories "bottoms")
  then outfit +:+ " Use your " +:+
       Py.join ", " (bucket categories "tops" ++ bucket categories "bottoms")%list
       +:+ "."
  else outfit.

Definition accessories_line (event : string) : string :=
  snd (event_templates event).

Definition suggest_rule_based (event clothes_text : string) : string :=
  "<b>Outfit:</b> " +:+ outfit_line event clothes_text +:+
  "<br><b>Color Tip:</b> " +:+ color_tip_line event clothes_text +:+
  "<br><b>Accessories:</b> " +:+ accessories_line event +:+
  "<br><b>Tip:</b> Match your vibe to the event!".

(** ** The web application

    A handler runs against a [World]: the users table, the session of the
    client, the messages flashed so far, what was printed, and the requests
    that went out to the remote model.  What the program takes from outside
    (the environment variable, the OpenAI client, werkzeug's two password
    functions) is an [Env]. *)

(** A raised exception, an instance of [Exception]: its class and [str(e)]. *)
Record PyExc := { exc_class : string; exc_msg : string }.

Inductive Res (A : Type) : Type :=
  | Val (a : A)
  | Raise (e : PyExc).
Arguments Val {A} a.
Arguments Raise {A} e.

(** A row of [users (id INTEGER PRIMARY KEY, username TEXT UNIQUE, password TEXT)]. *)
Record Row := { row_id : Z; row_username : string; row_password : string }.

(** The arguments of [client.chat.completions.create]. *)
Record ChatRequest := {
  req_model : string;
  req_content : string;
  req_temperature : Q;
  req_max_tokens : Z
}.

Record World := {
  db : list Row;
  session : gmap string Z;
  flashes : list string;
  stdout : list string;
  sent : list ChatRequest;
  rng : nat
}.

(** What one HTTP request of the OpenAI client comes to: the
    [message.content] of each element of [response.choices], or a failure
    that the client's retry policy does or does not take up (a connection
    error, a timeout, a status 408, 409, 429 or 5xx are retryable). *)
Inductive Attempt : Type :=
  | Answered (choices : list (option string))
  | Failed (retryable : bool) (e : PyExc).

(** The client's default number of retries; [app.py] builds the client
    without [max_retries]. *)
Definition max_retries : nat := 2.

(** One call of the client: the requests go out one after the other, the
    [n]-th with the outcome [attempt n], until one is answered, fails for
    good, or the retries are used up.  The result is the number of
    requests sent and what the call returns or raises. *)
Fixpoint request (attempt : nat → Attempt) (retries_left n : nat)
  {struct retries_left} : nat * Res (list (option string)) :=
  match attempt n with
  | Answered choices => (1, Val choices)
  | Failed retryable e =>
      match retries_left with
      | S retries =>
          if retryable
          then (S (request attempt retries (S n)).1,
                (request attempt retries (S n)).2)
          else (1, Raise e)
      | O => (1, Raise e)
      end
  end.

Record Env := {
  (** [os.getenv('OPENAI_API_KEY')] *)
  OPENAI_API_KEY : option string;
  (** [false] when the import failed and the module set [OpenAI = None] *)
  OpenAI : bool;
  (** [OpenAI(api_key=api_key, http_client=httpx.Client(proxies=None))] *)
  new_client : string → Res unit;
  (** the outcome of the [n]-th HTTP request the client sends for a call of
      [client.chat.completions.create(...)] *)
  http_attempt : ChatRequest → nat → Attempt;
  (** werkzeug's [generate_password_hash], by the state of its salt source *)
  generate_password_hash : nat → string → string;
  (** werkzeug's [check_password_hash(pwhash, password)] *)
  check_password_hash : string → option string → Res bool
}.

Definition M (A : Type) : Type := World → Res A * World.

#[global] Instance M_ret : MRet M := λ A a w, (Val a, w).
#[global] Instance M_bind : MBind M := λ A B f m w,
  match m w with
  | (Val a, w') => f a w'
  | (Raise e, w') => (Raise e, w')
  end.

Definition raise {A : Type} (e : PyExc) : M A := λ w, (Raise e, w).

(** [try: body except Exception as e: handler(e)] *)
Definition try_except {A : Type} (body : M A) (handler : PyExc → M A) : M A :=
  λ w, match body w with
       | (Val a, w') => (Val a, w')
       | (Raise e, w') => handler e w'
       end.

(** [try: body except cls: handler]: other classes pass through. *)
Definition try_except_class {A : Type} (cls : string) (body : M A)
    (handler : M A) : M A :=
  λ w, match body w with
       | (Val a, w') => (Val a, w')
       | (Raise e, w') =>
           if String.eqb (exc_class e) cls then handler w' else (Raise e, w')
       end.

Definition flash (msg : string) : M unit := λ w,
  (Val (), {| db := db w; session := session w; flashes := flashes w ++ [msg];
              stdout := stdout w; sent := sent w; rng := rng w |}).

Definition print (line : string) : M unit := λ w,
  (Val (), {| db := db w; session := session w; flashes := flashes w;
              stdout := stdout w ++ [line]; sent := sent w; rng := rng w |}).

Definition get_session : M (gmap string Z) := λ w, (Val (session w), w).

Definition set_session (s : gmap string Z) : M unit := λ w,
  (Val (), {| db := db w; session := s; flashes := flashes w;
              stdout := stdout w; sent := sent w; rng := rng w |}).

(** What a view function returns. *)
Inductive Response : Type :=
  | Redirect (endpoint : string)
  | Render (template : string) (context : gmap string (option string)).

(** The value behind a form field that passed the [not field] test. *)
Definition str_of (v : option string) : string := default "" v.

Section App.

Variable env : Env.

Definition lift {A : Type} (r : Res A) : M A := λ w, (r, w).

(** *** The OpenAI wrapper *)

Definition nl : string := String "010"%char EmptyString.
Definition indent16 : string := "                ".
Definition indent12 : string := "            ".

(** The f-string sent as the user message. *)
Definition prompt (event clothes_text : string) : string :=
  nl +:+ indent16 +:+ "Suggest a stylish outfit for " +:+ event +:+
    " using clothes: " +:+ clothes_text +:+ "." +:+
  nl +:+ indent16 +:+ "Format as:" +:+
  nl +:+ indent16 +:+ "- Outfit: [suggestion]" +:+
  nl +:+ indent16 +:+ "- Color Tip: [tip]" +:+
  nl +:+ indent16 +:+ "- Accessories: [accessories]" +:+
  nl +:+ indent16 +:+ "- Tip: [styling tip]" +:+
  nl +:+ indent12.

(** What [client.chat.completions.create(...)] returns or raises, after
    the client's retries. *)
Definition chat_completions_create (req : ChatRequest)
  : Res (list (option string)) :=
  (request (http_attempt env req) max_retries 0).2.

(** The number of HTTP requests that call sends. *)
Definition http_requests (req : ChatRequest) : nat :=
  (request (http_attempt env req) max_retries 0).1.

(** One call of [client.chat.completions.create]; every request that goes
    out is recorded. *)
Definition create (req : ChatRequest) : M (list (option string)) := λ w,
  (chat_completions_create req,
   {| db := db w; session := session w; flashes := flashes w;
      stdout := stdout w;
      sent := sent w ++ replicate (http_requests req) req; rng := rng w |}).

(** [response.choices[0].message.content]: [IndexError] on no choice. *)
Definition first_content (choices : list (option string)) : M (option string) :=
  match choices with
  | [] => raise {| exc_class := "IndexError";
                   exc_msg := "list index out of range" |}
  | content :: _ => mret content
  end.

(** [content.strip()]: [AttributeError] when the content is [None]. *)
Definition strip_content (content : option string) : M string :=
  match content with
  | None => raise {| exc_class := "AttributeError";
                     exc_msg := "'NoneType' object has no attribute 'strip'" |}
  | Some s => mret (Py.strip s)
  end.

Definition call_openai (event clothes_text : string) (temperature : Q)
  : M (option string) :=
  let api_key := OPENAI_API_KEY env in
  if negb (Py.truthy api_key) || negb (OpenAI env) then mret None
  else
    try_except
      (lift (new_client env (str_of api_key));;
       choices ← create {| req_model := "gpt-3.5-turbo";
                           req_content := prompt event clothes_text;
                           req_temperature := temperature;
                           req_max_tokens := 150 |};
       content ← first_content choices;
       text ← strip_content content;
       mret (Some text))
      (λ e, print ("OpenAI error: " +:+ exc_msg e);; mret None).

(** *** [/] *)

Definition index_page (suggestion use_ai_notice : option string) : Response :=
  Render "index.html"
    (<["suggestion" := suggestion]> (<["use_ai_notice" := use_ai_notice]> ∅)).

Definition ai_unavailable : string :=
  "AI unavailable — using rule-based suggestions.".

Definition index (method : string) (form : gmap string string) : M Response :=
  if String.eqb method "POST" then
    let event := form !! "event" in
    let clothes_text := form !! "clothes" in
    let use_ai := bool_decide (form !! "use_ai" = Some "on") in
    if negb (Py.truthy event) || negb (Py.truthy clothes_text) then
      flash "Please enter event and clothes.";;
      mret (Redirect "index")
    else if use_ai then
      ai_suggestion ← call_openai (str_of event) (str_of clothes_text) (7 # 10);
      if Py.truthy ai_suggestion then
        mret (index_page ai_suggestion None)
      else
        mret (index_page
                (Some (suggest_rule_based (str_of event) (str_of clothes_text)))
                (Some ai_unavailable))
    else
      mret (index_page
              (Some (suggest_rule_based (str_of event) (str_of clothes_text)))
              None)
  else mret (index_page None None).

(** *** The users table

    Every handler opens its own connection to [users.db] and closes it
    when done; a connection carries no state of its own here, the table
    is the [db] of the world. *)

(** The id of a new row: 1 in an empty table, otherwise one more than the
    largest id in use.  (When the largest id is the largest 64-bit integer
    SQLite looks for an unused id at random instead; a table that far is
    outside this model.) *)
Definition next_rowid (rows : list Row) : Z :=
  match rows with
  | [] => 1
  | r :: rest => 1 + foldr (λ r m, Z.max (row_id r) m) (row_id r) rest
  end.

Definition username_taken (username : string) (rows : list Row) : bool :=
  existsb (λ r, String.eqb (row_username r) username) rows.

(** [INSERT INTO users (username, password) VALUES (?, ?)] and the commit:
    the UNIQUE constraint on [username] raises [sqlite3.IntegrityError] and
    leaves the table as it was. *)
Definition insert_user (username password : string) : M unit := λ w,
  if username_taken username (db w) then
    (Raise {| exc_class := "sqlite3.IntegrityError";
              exc_msg := "UNIQUE constraint failed: users.username" |}, w)
  else
    (Val (),
     {| db := db w ++ [{| row_id := next_rowid (db w);
                          row_username := username;
                          row_password := password |}];
        session := session w; flashes := flashes w;
        stdout := stdout w; sent := sent w; rng := rng w |}).

(** [SELECT * FROM users WHERE username = ?] and [fetchone()]; a parameter
    that is [None] is bound as NULL, which equals no username. *)
Definition select_by_username (username : option string) (rows : list Row)
  : option Row :=
  match username with
  | None => None
  | Some u => List.find (λ r, String.eqb (row_username r) u) rows
  end.

(** [SELECT username FROM users WHERE id = ?] and [fetchone()] *)
Definition select_username_by_id (uid : Z) (rows : list Row) : option string :=
  row_username <$> List.find (λ r, Z.eqb (row_id r) uid) rows.

Definition get_db : M (list Row) := λ w, (Val (db w), w).

(** [generate_password_hash(password)]: the salt source moves on. *)
Definition hash_password (password : string) : M string := λ w,
  (Val (generate_password_hash env (rng w) password),
   {| db := db w; session := session w; flashes := flashes w;
      stdout := stdout w; sent := sent w; rng := S (rng w) |}).

(** *** [/signup] *)

Definition signup (method : string) (form : gmap string string) : M Response :=
  if String.eqb method "POST" then
    let username := form !! "username" in
    let password := form !! "password" in
    if negb (Py.truthy username) || negb (Py.truthy password) then
      flash "Username and password required.";;
      mret (Redirect "signup")
    else
      hashed_pw ← hash_password (str_of password);
      try_except_class "sqlite3.IntegrityError"
        (insert_user (str_of username) hashed_pw;;
         flash "Signup successful! Please login.";;
         mret (Redirect "login"))
        (flash "Username already taken.";;
         mret (Render "signup.html" ∅))
  else mret (Render "signup.html" ∅).

(** *** [/login] *)

Definition login (method : string) (form : gmap string string) : M Response :=
  if String.eqb method "POST" then
    let username := form !! "username" in
    let password := form !! "password" in
    rows ← get_db;
    let invalid : M Response :=
      flash "Invalid username or password.";;
      mret (Render "login.html" ∅) in
    match select_by_username username rows with
    | None => invalid
    | Some user =>
        ok ← lift (check_password_hash env (row_password user) password);
        if ok : bool then
          s ← get_session;
          set_session (<["user_id" := row_id user]> s);;
          flash "Login successful!";;
          mret (Redirect "profile")
        else invalid
    end
  else mret (Render "login.html" ∅).

(** *** [/profile] *)

Definition profile : M Response :=
  s ← get_session;
  match s !! "user_id" with
  | Some uid =>
      rows ← get_db;
      match select_username_by_id uid rows with
      | None =>
          (* [c.fetchone()[0]] on [None] *)
          raise {| exc_class := "TypeError";
                   exc_msg := "'NoneType' object is not subscriptable" |}
      | Some username =>
          mret (Render "profile.html" (<["username" := Some username]> ∅))
      end
  | None =>
      flash "Please login.";;
      mret (Redirect "login")
  end.

End App.

(** ** The rule tables, as the specification words them

    The specification describes both cascades as ordered tables in which the
    first matching entry wins.  These definitions follow that wording; the
    theorems below compare them with [categorize_step] and
    [event_templates]. *)

Definition bucket_keys : list string :=
  ["tops"; "bottoms"; "dresses"; "outer"; "shoes"; "accessories"].

Definition garment_table : list (list string * string) :=
  [ (["shirt"; "top"], "tops");
    (["jeans"; "pants"; "skirt"], "bottoms");
    (["dress"], "dresses");
    (["jacket"; "coat"], "outer");
    (["shoes"; "sneakers"; "boots"], "shoes") ].

Fixpoint first_bucket (table : list (list string * string)) (item : string)
  : string :=
  match table with
  | [] => "accessories"
  | (keywords, k) :: rest =>
      if existsb (λ kw, Py.contains kw item) keywords then k
      else first_bucket rest item
  end.

Definition bucket_of (item : string) : string :=
  first_bucket garment_table item.

Definition interview_templates : string * string * string :=
  ("Professional: Button-up shirt with slacks or skirt.",
   "Neutral colors (black, navy, gray).",
   "Minimal: Watch, simple earrings, polished shoes.").

Definition party_templates : string * string * string :=
  ("Fun and vibrant: Stylish top with jeans.",
   "Bright or metallic colors to stand out.",
   "Statement jewelry, clutch, heels or boots.").

Definition college_templates : string * string * string :=
  ("Casual: Jeans with t-shirt or hoodie.",
   "Mix casual colors; earth tones for relaxed vibe.",
   "Backpack, sneakers, cap or scarf.").

Definition wedding_templates : string * string * string :=
  ("Elegant dress or suit.",
   "Pastels or jewel tones.",
   "Delicate jewelry, dress shoes, small bag.").

Definition default_templates : string * string * string :=
  ("Comfortable and confident: Mix and match your clothes.",
   "Neutrals work for any occasion.",
   "Keep it simple.").

Definition event_table : list (string * (string * string * string)) :=
  [ ("interview", interview_templates);
    ("party", party_templates);
    ("college", college_templates);
    ("wedding", wedding_templates) ].

Fixpoint first_event (table : list (string * (string * string * string)))
    (event : string) : string * string * string :=
  match table with
  | [] => default_templates
  | (keyword, templates) :: rest =>
      if Py.contains keyword event then templates
      else first_event rest event
  end.

(** Every key the loop writes to is present. *)
Definition has_keys (cats : gmap string (list string)) : Prop :=
  ∀ k, k ∈ bucket_keys → is_Some (cats !! k).

(** ** Auxiliary notions for the split/join argument *)

(** The character [c] occurs in [s]. *)
Fixpoint mem_char (c : ascii) (s : string) : bool :=
  match s with
  | EmptyString => false
  | String a s' => Ascii.eqb a c || mem_char c s'
  end.

(** What splitting a ", "-joined list gives back: every piece but the first
    carries the space of the separator. *)
Definition respace (l : list string) : list string :=
  match l with
  | [] => []
  | x :: rest => x :: (String " " <$> rest)
  end.

(** The garment normalisation of [items]. *)
Definition normalize (piece : string) : string := Py.lower (Py.strip piece).

(** A character that [lower] leaves alone wherever it stands. *)
Definition stable (u : string) : bool :=
  Py.complete u && negb (String.eqb u Py.capital_sigma)
  && bool_decide (Py.assoc Py.lower_table u = None).

(** What [lower] may put in the place of a character: a text that is not
    empty, made of stable characters none of which is whitespace, and free
    of commas. *)
Definition sound_image (v : string) : bool :=
  negb (String.eqb v "")
  && forallb (λ w, stable w && negb (Py.isspace w)) (Py.chars v)
  && negb (mem_char "," v).

(** How the text [v] that [lower] puts for the code point [u] relates to
    it. *)
Definition lowered (u v : string) : Prop :=
  v ≠ "" ∧ Py.utf8 v = true
  ∧ Forall (λ w, stable w = true) (Py.chars v)
  ∧ (Py.isspace u = false → Forall (λ w, Py.isspace w = false) (Py.chars v)).

(** What [lower_chars] puts in the place of the character [u]. *)
Definition image (before : list string) (u : string) (after : list string)
  : string :=
  if String.eqb u Py.capital_sigma
  then (if Py.final_sigma before after then "ς" else "σ")
  else Py.lower_char u.

(** ** Outcomes and sample data *)

Definition with_flash (msg : string) (w : World) : World :=
  {| db := db w; session := session w; flashes := flashes w ++ [msg];
     stdout := stdout w; sent := sent w; rng := rng w |}.

(** The answer to a failed login: the form again, with the generic message. *)
Definition invalid_login (w : World) : Res Response * World :=
  (Val (Render "login.html" ∅), with_flash "Invalid username or password." w).

(** The table after a successful signup of [username]. *)
Definition signed_up (env : Env) (username password : string) (w : World)
  : World :=
  {| db := db w ++ [{| row_id := next_rowid (db w);
                       row_username := username;
                       row_password :=
                         generate_password_hash env (rng w) password |}];
     session := session w;
     flashes := flashes w ++ ["Signup successful! Please login."];
     stdout := stdout w; sent := sent w; rng := S (rng w) |}.

Definition credentials (username password : string) : gmap string string :=
  <["username" := username]> (<["password" := password]> ∅).

Definition none_type_error : PyExc :=
  {| exc_class := "TypeError";
     exc_msg := "'NoneType' object is not subscriptable" |}.

Definition empty_world : World :=
  {| db := []; session := ∅; flashes := []; stdout := []; sent := [];
     rng := 0 |}.

(** A password scheme for examples: the reversed password behind a method
    tag, whatever the salt. *)
Definition sample_hash (salt : nat) (password : string) : string :=
  "sample$" +:+ String.rev password.

(** werkzeug's check for the sample scheme; like werkzeug's it calls
    [password.encode()], which fails on [None]. *)
Definition sample_check (pwhash : string) (password : option string)
  : Res bool :=
  match password with
  | None => Raise {| exc_class := "AttributeError";
                     exc_msg := "'NoneType' object has no attribute 'encode'" |}
  | Some p => Val (String.eqb pwhash (sample_hash 0 p))
  end.

Definition connection_error : PyExc :=
  {| exc_class := "APIConnectionError"; exc_msg := "Connection error." |}.

(** An environment without an API key, whose remote model is
    unreachable. *)
Definition offline_env : Env :=
  {| OPENAI_API_KEY := None;
     OpenAI := true;
     new_client := λ _, Val ();
     http_attempt := λ _ _, Failed true connection_error;
     generate_password_hash := sample_hash;
     check_password_hash := sample_check |}.

(** The same with an API key. *)
Definition keyed_env : Env :=
  {| OPENAI_API_KEY := Some "sk-test";
     OpenAI := true;
     new_client := λ _, Val ();
     http_attempt := λ _ _, Failed true connection_error;
     generate_password_hash := sample_hash;
     check_password_hash := sample_check |}.

(** A table with the one user alice. *)
Definition alice_world : World :=
  {| db := [{| row_id := 1; row_username := "alice";
               row_password := sample_hash 0 "pw1" |}];
     session := ∅; flashes := []; stdout := []; sent := []; rng := 1 |}.

(** A session that still names user 7 over an empty table. *)
Definition dangling_world : World :=
  {| db := []; session := <["user_id" := 7%Z]> ∅; flashes := []; stdout := [];
     sent := []; rng := 0 |}.

(** A suggestion request that asks for the AI. *)
Definition ai_form : gmap string string :=
  <["event" := "Party"]> (<["clothes" := "red dress"]>
  (<["use_ai" := "on"]> ∅)).

(** Unfolds the monadic plumbing of a handler. *)
Ltac run :=
  cbv [mbind M_bind mret M_ret lift raise try_except try_except_class
       flash print get_session set_session get_db create first_content
       strip_content hash_password insert_user].

(** ** The remaining view and notions for the further properties *)

(** [/logout]: [session.pop('user_id', None)], the flash, the redirect. *)
Definition logout : M Response :=
  s ← get_session;
  set_session (delete "user_id" s);;
  flash "Logged out.";;
  mret (Redirect "index").

(** The request [call_openai] sends for a suggestion request. *)
Definition suggestion_request (event clothes_text : string) : ChatRequest :=
  {| req_model := "gpt-3.5-turbo";
     req_content := prompt event clothes_text;
     req_temperature := 7 # 10;
     req_max_tokens := 150 |}.

(** The world after [n] copies of a request went out. *)
Definition with_requests (n : nat) (req : ChatRequest) (w : World) : World :=
  {| db := db w; session := session w; flashes := flashes w;
     stdout := stdout w; sent := sent w ++ replicate n req; rng := rng w |}.

(** The world after a line was printed. *)
Definition with_stdout (line : string) (w : World) : World :=
  {| db := db w; session := session w; flashes := flashes w;
     stdout := stdout w ++ [line]; sent := sent w; rng := rng w |}.

(** The world after a login as [user]. *)
Definition logged_in (user : Row) (w : World) : World :=
  {| db := db w; session := <["user_id" := row_id user]> (session w);
     flashes := flashes w ++ ["Login successful!"];
     stdout := stdout w; sent := sent w; rng := rng w |}.

(** The number of occurrences of [c] in [s]. *)
Fixpoint count_char (c : ascii) (s : string) : nat :=
  match s with
  | EmptyString => 0
  | String a s' => (if Ascii.eqb a c then 1 else 0) + count_char c s'
  end.

(** The six buckets one after the other, in the order of the keys. *)
Definition all_buckets (categories : gmap string (list string)) : list string :=
  concat (bucket categories <$> bucket_keys).

(** An environment whose remote model answers the second request, after
    a first one that failed with a status 500, with padding around the
    text. *)
Definition answering_env : Env :=
  {| OPENAI_API_KEY := Some "sk-test";
     OpenAI := true;
     new_client := λ _, Val ();
     http_attempt := λ _ n,
       match n with
       | O => Failed true {| exc_class := "InternalServerError";
                             exc_msg := "Error code: 500" |}
       | S _ => Answered [Some "  - Outfit: the red dress.  "; Some "unused"]
       end;
     generate_password_hash := sample_hash;
     check_password_hash := sample_check |}.

(** * Properties *)

(** ** Strings *)

Section StringFacts.

Lemma app_String (a : ascii) (s t : string) :
  String a s +:+ t = String a (s +:+ t).
Proof. reflexivity. Qed.

Lemma app_empty_l (s : string) : "" +:+ s = s.
Proof. reflexivity. Qed.

Lemma app_empty_r (s : string) : s +:+ "" = s.
Proof. induction s as [|a s IH]; [done|]. by rewrite app_String, IH. Qed.

Lemma app_assoc_s (s t u : string) : (s +:+ t) +:+ u = s +:+ (t +:+ u).
Proof. induction s as [|a s IH]; [done|]. by rewrite !app_String, IH. Qed.

Lemma startswith_spec (p s : string) :
  Py.startswith p s = true ↔ ∃ suf, s = p +:+ suf.
Proof.
  revert s. induction p as [|a p IH]; intros s.
  - split; [|done]. intros _. by exists s.
  - destruct s as [|b s]; simpl.
    + split; [done|]. by intros [suf ?].
    + rewrite andb_true_iff, IH, Ascii.eqb_eq. split.
      * intros [-> [suf ->]]. by exists suf.
      * intros [suf H]. rewrite app_String in H. injection H as -> ->. eauto.
Qed.

Lemma contains_spec (sub s : string) :
  Py.contains sub s = true ↔ ∃ pre suf, s = pre +:+ sub +:+ suf.
Proof.
  induction s as [|b s IH]; simpl; rewrite orb_true_iff, startswith_spec.
  - split.
    + intros [[suf H]|?]; [|done]. by exists "", suf.
    + intros ([|??] & suf & H); [|done]. left. by exists suf.
  - rewrite IH. split.
    + intros [[suf H]|(pre & suf & ->)].
      * by exists "", suf.
      * by exists (String b pre), suf.
    + intros ([|c pre] & suf & H).
      * left. by exists suf.
      * rewrite app_String in H. injection H as -> ->. right. eauto.
Qed.

End StringFacts.

(** ** The rule engine *)

(** C2.  The detected colours are exactly the palette colours that occur
    in the lower-cased text, as a substring anywhere in it; they come in
    palette order, each at most once.  A colour named twice is reported
    once, "blackout" contains "black", and the Kelvin sign, which
    lower-cases to k, completes a "pink". *)
Theorem detected_colors_spec (clothes_text : string) :
  (∀ c, c ∈ detected_colors clothes_text ↔
        c ∈ colors ∧
        ∃ pre suf, Py.lower clothes_text = pre +:+ c +:+ suf)
  ∧ sublist (detected_colors clothes_text) colors
  ∧ NoDup (detected_colors clothes_text)
  ∧ colors = ["red"; "blue"; "green"; "black"; "white"; "gray"; "yellow"; "pink"]
  ∧ detected_colors "I have a red shirt and a red hat" = ["red"]
  ∧ detected_colors "blackout" = ["black"]
  ∧ detected_colors "a White hat, a PINK scarf and a BLUE coat"
    = ["blue"; "white"; "pink"].
Proof.
  split_and!.
  - intros c. unfold detected_colors.
    rewrite list_elem_of_filter, contains_spec. tauto.
  - apply sublist_filter.
  - apply NoDup_filter.
    apply (bool_decide_unpack (NoDup colors)). by vm_compute.
  - reflexivity.
  - by vm_compute.
  - by vm_compute.
  - by vm_compute.
Qed.

(** C3.  The event is lower-cased and matched against "interview", "party",
    "college", "wedding" in that order; the first keyword it contains
    selects the templates, and an event containing none of them gets the
    default ones.  "interview at a party" is an interview. *)
Theorem event_classification (event : string) :
  event_templates event = first_event event_table (Py.lower event)
  ∧ event_table.*1 = ["interview"; "party"; "college"; "wedding"]
  ∧ (Py.contains "interview" (Py.lower event) = true →
     event_templates event = interview_templates)
  ∧ (Py.contains "interview" (Py.lower event) = false →
     Py.contains "party" (Py.lower event) = true →
     event_templates event = party_templates)
  ∧ (Py.contains "interview" (Py.lower event) = false →
     Py.contains "party" (Py.lower event) = false →
     Py.contains "college" (Py.lower event) = true →
     event_templates event = college_templates)
  ∧ (Py.contains "interview" (Py.lower event) = false →
     Py.contains "party" (Py.lower event) = false →
     Py.contains "college" (Py.lower event) = false →
     Py.contains "wedding" (Py.lower event) = true →
     event_templates event = wedding_templates)
  ∧ (Py.contains "interview" (Py.lower event) = false →
     Py.contains "party" (Py.lower event) = false →
     Py.contains "college" (Py.lower event) = false →
     Py.contains "wedding" (Py.lower event) = false →
     event_templates event = default_templates)
  ∧ event_templates "interview at a party" = interview_templates.
Proof.
  unfold event_templates.
  cbv [first_event event_table fmap list_fmap fst].
  repeat split; by intros; repeat match goal with H : _ = _ |- _ => rewrite H end.
Qed.

(** C4.  The college scenario, with the AI switch off: the four lines of the
    suggestion, the suggestion as a whole, and the page the handler
    answers with. *)
Theorem college_fest_scenario :
  let event := "College fest" in
  let clothes := "blue jeans, white t-shirt, sneakers" in
  outfit_line event clothes =
    "Casual: Jeans with t-shirt or hoodie." +:+
    " Use your white t-shirt, blue jeans."
  ∧ color_tip_line event clothes =
    "Mix casual colors; earth tones for relaxed vibe." +:+
    " Detected: blue, white."
  ∧ accessories_line event = snd college_templates
  ∧ suggest_rule_based event clothes =
    "<b>Outfit:</b> Casual: Jeans with t-shirt or hoodie. Use your white t-shirt, blue jeans.<br><b>Color Tip:</b> Mix casual colors; earth tones for relaxed vibe. Detected: blue, white.<br><b>Accessories:</b> Backpack, sneakers, cap or scarf.<br><b>Tip:</b> Match your vibe to the event!"
  ∧ ∀ env w,
      index env "POST" (<["event" := event]> (<["clothes" := clothes]> ∅)) w
      = (Val (index_page (Some (suggest_rule_based event clothes)) None), w).
Proof.
  repeat split; by vm_compute.
Qed.

(** *** The categorisation loop *)

Lemma categorize_step_bucket_of (cats : gmap string (list string))
    (item : string) :
  categorize_step cats item = append_to (bucket_of item) item cats.
Proof.
  unfold categorize_step. cbv [bucket_of first_bucket garment_table existsb].
  repeat (destruct (Py.contains _ item); try reflexivity).
Qed.

Lemma bucket_of_key (item : string) : bucket_of item ∈ bucket_keys.
Proof.
  cbv [bucket_of first_bucket garment_table existsb]. unfold bucket_keys.
  repeat (destruct (Py.contains _ item); simpl;
          try by rewrite !elem_of_cons; naive_solver).
Qed.

Lemma has_keys_categories0 : has_keys categories0.
Proof.
  intros k. unfold bucket_keys. rewrite !elem_of_cons, elem_of_nil.
  intros [->|[->|[->|[->|[->|[->|[]]]]]]]; by vm_compute; eauto.
Qed.

Lemma has_keys_append_to (b item : string) (cats : gmap string (list string)) :
  has_keys cats → has_keys (append_to b item cats).
Proof.
  intros H k Hk. unfold append_to. rewrite lookup_alter.
  case_decide; [subst; apply fmap_is_Some|]; by apply H.
Qed.

Lemma bucket_append_to (b item k : string) (cats : gmap string (list string)) :
  is_Some (cats !! b) →
  bucket (append_to b item cats) k
  = if decide (b = k) then bucket cats k ++ [item] else bucket cats k.
Proof.
  intros [l Hl]. unfold bucket, append_to. rewrite lookup_alter.
  case_decide; [subst; by rewrite Hl|done].
Qed.

Lemma bucket_foldl (cats : gmap string (list string)) (its : list string)
    (k : string) :
  has_keys cats →
  bucket (foldl categorize_step cats its) k
  = bucket cats k ++ filter (λ it, bucket_of it = k) its.
Proof.
  revert cats. induction its as [|it its IH]; intros cats Hk; simpl.
  - by rewrite app_nil_r.
  - rewrite categorize_step_bucket_of, IH by by apply has_keys_append_to.
    rewrite bucket_append_to by apply Hk, bucket_of_key.
    rewrite filter_cons. case_decide; [by rewrite <- app_assoc|done].
Qed.

Lemma bucket_categories0 (k : string) : bucket categories0 k = [].
Proof.
  unfold bucket, categories0.
  repeat (rewrite lookup_insert; case_decide; [done|]).
  by rewrite lookup_empty.
Qed.

Lemma bucket_categorize (its : list string) (k : string) :
  bucket (categorize its) k = filter (λ it, bucket_of it = k) its.
Proof.
  unfold categorize.
  by rewrite bucket_foldl, bucket_categories0 by apply has_keys_categories0.
Qed.

(** C1.  Each garment (a piece of the comma split, trimmed and lower-cased)
    is put in the bucket of the first row of the priority table one of whose
    keywords it contains, and in accessories when no row matches: the bucket
    is always one of the six, a garment is listed under a key exactly when
    that key is its bucket, and "leather jacket" goes to outer. *)
Theorem categorization_spec (clothes_text : string) :
  let cats := categorize (items clothes_text) in
  items clothes_text
    = (λ piece, Py.lower (Py.strip piece)) <$> Py.split "," clothes_text
  ∧ dom cats = list_to_set bucket_keys
  ∧ (∀ k, bucket cats k
          = filter (λ it, bucket_of it = k) (items clothes_text))
  ∧ (∀ it, it ∈ items clothes_text → bucket_of it ∈ bucket_keys)
  ∧ (∀ it k, it ∈ bucket cats k ↔ it ∈ items clothes_text ∧ bucket_of it = k)
  ∧ (∀ it k1 k2, it ∈ bucket cats k1 → it ∈ bucket cats k2 → k1 = k2)
  ∧ bucket_of "leather jacket" = "outer"
  ∧ bucket (categorize (items "leather jacket")) "outer" = ["leather jacket"]
  ∧ bucket (categorize (items "leather jacket")) "accessories" = [].
Proof.
  intros cats.
  assert (Hb : ∀ k, bucket cats k
                    = filter (λ it, bucket_of it = k) (items clothes_text))
    by (intros; apply bucket_categorize).
  assert (Hm : ∀ it k, it ∈ bucket cats k ↔
                       it ∈ items clothes_text ∧ bucket_of it = k).
  { intros it k. rewrite Hb, list_elem_of_filter. tauto. }
  split_and!; try done.
  - subst cats. unfold categorize.
    generalize (items clothes_text). intros its.
    assert (H : ∀ c, dom (foldl categorize_step c its) = dom c).
    { induction its as [|it its IH]; intros c; simpl; [done|].
      rewrite IH, categorize_step_bucket_of. apply dom_alter_L. }
    rewrite H. by vm_compute.
  - intros. apply bucket_of_key.
  - intros it k1 k2 [_ <-]%Hm [_ <-]%Hm. done.
Qed.

(** *** Splitting, trimming and joining *)

Section SplitJoin.

(** **** Characters *)

Lemma chars_unfold (b0 : ascii) (s1 : string) :
  Py.chars (String b0 s1)
  = match Py.lead_len b0 with
    | 2 =>
        match s1 with
        | String b1 s2 =>
            if Py.is_cont b1
            then String b0 (String b1 "") :: Py.chars s2
            else String b0 "" :: Py.chars s1
        | _ => String b0 "" :: Py.chars s1
        end
    | 3 =>
        match s1 with
        | String b1 (String b2 s3) =>
            if Py.is_cont b1 && Py.is_cont b2
            then String b0 (String b1 (String b2 "")) :: Py.chars s3
            else String b0 "" :: Py.chars s1
        | _ => String b0 "" :: Py.chars s1
        end
    | 4 =>
        match s1 with
        | String b1 (String b2 (String b3 s4)) =>
            if Py.is_cont b1 && Py.is_cont b2 && Py.is_cont b3
            then String b0 (String b1 (String b2 (String b3 ""))) :: Py.chars s4
            else String b0 "" :: Py.chars s1
        | _ => String b0 "" :: Py.chars s1
        end
    | _ => String b0 "" :: Py.chars s1
    end.
Proof. reflexivity. Qed.

Lemma unchars_cons (u : string) (us : list string) :
  Py.unchars (u :: us) = u +:+ Py.unchars us.
Proof. reflexivity. Qed.

Lemma unchars_chars_le (n : nat) (s : string) :
  (String.length s <= n)%nat → Py.unchars (Py.chars s) = s.
Proof.
  revert s. induction n as [|n IH]; intros [|b0 s1] Hn; simpl in Hn;
    [done|lia|done|].
  assert (H1 : Py.unchars (String b0 "" :: Py.chars s1) = String b0 s1).
  { rewrite unchars_cons, app_String, app_empty_l. f_equal. apply IH. lia. }
  rewrite chars_unfold.
  destruct (Py.lead_len b0) as [|[|[|[|[|?]]]]]; try exact H1.
  - destruct s1 as [|b1 s2]; [exact H1|].
    destruct (Py.is_cont b1); [|exact H1].
    rewrite unchars_cons, !app_String, app_empty_l. do 2 f_equal.
    apply IH. simpl in Hn. lia.
  - destruct s1 as [|b1 [|b2 s3]]; try exact H1.
    destruct (Py.is_cont b1 && Py.is_cont b2); [|exact H1].
    rewrite unchars_cons, !app_String, app_empty_l. do 3 f_equal.
    apply IH. simpl in Hn. lia.
  - destruct s1 as [|b1 [|b2 [|b3 s4]]]; try exact H1.
    destruct (Py.is_cont b1 && Py.is_cont b2 && Py.is_cont b3); [|exact H1].
    rewrite unchars_cons, !app_String, app_empty_l. do 4 f_equal.
    apply IH. simpl in Hn. lia.
Qed.

Lemma unchars_chars (s : string) : Py.unchars (Py.chars s) = s.
Proof. by apply (unchars_chars_le (String.length s)). Qed.

Lemma chars_complete_app (u s : string) :
  Py.complete u = true → Py.chars (u +:+ s) = u :: Py.chars s.
Proof.
  destruct u as [|b0 [|b1 [|b2 [|b3 [|b4 u]]]]]; intros H; simpl in H;
    try done; rewrite ?app_String, ?app_empty_l, chars_unfold.
  - apply Nat.eqb_eq in H. by rewrite H.
  - apply andb_true_iff in H as [H H1]. apply Nat.eqb_eq in H.
    by rewrite H, H1.
  - apply andb_true_iff in H as [[H H1]%andb_true_iff H2].
    apply Nat.eqb_eq in H. by rewrite H, H1, H2.
  - apply andb_true_iff in H
      as [[[H H1]%andb_true_iff H2]%andb_true_iff H3].
    apply Nat.eqb_eq in H. by rewrite H, H1, H2, H3.
Qed.

Lemma chars_complete (u : string) : Py.complete u = true → Py.chars u = [u].
Proof.
  intros H. rewrite <- (app_empty_r u) at 1. by rewrite chars_complete_app.
Qed.

Lemma chars_unchars (us : list string) :
  Forall (λ u, Py.complete u = true) us → Py.chars (Py.unchars us) = us.
Proof.
  induction 1 as [|u us Hu _ IH]; [done|].
  by rewrite unchars_cons, chars_complete_app, IH.
Qed.

Lemma utf8_chars (s : string) :
  Py.utf8 s = true → Forall (λ u, Py.complete u = true) (Py.chars s).
Proof.
  unfold Py.utf8. intros H. apply Forall_forall. intros u Hu.
  eapply forallb_forall in H; [done|]. by apply list_elem_of_In.
Qed.

Lemma chars_utf8 (us : list string) :
  Forall (λ u, Py.complete u = true) us → Py.utf8 (Py.unchars us) = true.
Proof.
  intros H. unfold Py.utf8. rewrite chars_unchars by done.
  apply forallb_forall. intros u Hu%list_elem_of_In.
  by eapply Forall_forall in H.
Qed.

(** A text made of code points splits into its characters piece by
    piece. *)
Lemma chars_app (v s : string) :
  Py.utf8 v = true → Py.chars (v +:+ s) = Py.chars v ++ Py.chars s.
Proof.
  intros H%utf8_chars. rewrite <- (unchars_chars v) at 1.
  induction H as [|u us Hu _ IH]; [done|].
  by rewrite unchars_cons, app_assoc_s, chars_complete_app, IH.
Qed.

Lemma chars_unchars_texts (vs : list string) :
  Forall (λ v, Py.utf8 v = true) vs →
  Py.chars (Py.unchars vs) = mjoin (Py.chars <$> vs).
Proof.
  induction 1 as [|v vs Hv _ IH]; [done|].
  by rewrite unchars_cons, chars_app, IH.
Qed.

Lemma unchars_app (us vs : list string) :
  Py.unchars (us ++ vs) = Py.unchars us +:+ Py.unchars vs.
Proof.
  induction us as [|u us IH]; [done|].
  change ((u :: us) ++ vs) with (u :: (us ++ vs)).
  by rewrite !unchars_cons, IH, app_assoc_s.
Qed.

Lemma unchars_mjoin_chars (vs : list string) :
  Py.unchars (mjoin (Py.chars <$> vs)) = Py.unchars vs.
Proof.
  induction vs as [|v vs IH]; [done|].
  rewrite fmap_cons. simpl. by rewrite unchars_app, unchars_chars, IH.
Qed.

(** **** Trimming *)

Lemma lstrip_chars_sublist (us : list string) :
  sublist (Py.lstrip_chars us) us.
Proof.
  induction us as [|u us IH]; simpl; [done|].
  destruct (Py.isspace u); [by apply sublist_cons|done].
Qed.

Lemma rstrip_chars_sublist (us : list string) :
  sublist (Py.rstrip_chars us) us.
Proof.
  induction us as [|u us IH]; simpl; [done|].
  destruct (Py.rstrip_chars us) as [|r rs].
  - destruct (Py.isspace u); [apply sublist_nil_l|].
    by apply sublist_skip, sublist_nil_l.
  - by apply sublist_skip.
Qed.

Lemma strip_chars_sublist (us : list string) :
  sublist (Py.rstrip_chars (Py.lstrip_chars us)) us.
Proof.
  etrans; [apply rstrip_chars_sublist|apply lstrip_chars_sublist].
Qed.

Lemma lstrip_chars_head (us : list string) (u : string) :
  head (Py.lstrip_chars us) = Some u → Py.isspace u = false.
Proof.
  induction us as [|u0 us IH]; simpl; [done|].
  destruct (Py.isspace u0) eqn:E; [done|]. simpl. by intros [= <-].
Qed.

Lemma rstrip_chars_head (us : list string) (u : string) :
  (∀ u0, head us = Some u0 → Py.isspace u0 = false) →
  head (Py.rstrip_chars us) = Some u → Py.isspace u = false.
Proof.
  destruct us as [|u0 us]; simpl; [done|]. intros H.
  rewrite (H u0 eq_refl).
  destruct (Py.rstrip_chars us); simpl; intros [= <-]; by apply H.
Qed.

Lemma rstrip_chars_last (us : list string) (u : string) :
  last (Py.rstrip_chars us) = Some u → Py.isspace u = false.
Proof.
  induction us as [|u0 us IH]; simpl; [done|].
  destruct (Py.rstrip_chars us) as [|r rs].
  - destruct (Py.isspace u0) eqn:E; [done|]. simpl. by intros [= <-].
  - rewrite last_cons. destruct (last (r :: rs)) eqn:El.
    + intros [= <-]. by apply IH.
    + by apply last_None in El.
Qed.

Lemma lstrip_chars_fixed (us : list string) :
  (∀ u, head us = Some u → Py.isspace u = false) → Py.lstrip_chars us = us.
Proof.
  destruct us as [|u us]; simpl; [done|]. intros H. by rewrite (H u eq_refl).
Qed.

Lemma rstrip_chars_fixed (us : list string) :
  (∀ u, last us = Some u → Py.isspace u = false) → Py.rstrip_chars us = us.
Proof.
  induction us as [|u0 us IH]; simpl; [done|]. intros H.
  destruct us as [|u1 us].
  - simpl. by rewrite (H u0 eq_refl).
  - rewrite IH; [done|]. intros u Hu. apply H. by rewrite last_cons, Hu.
Qed.

(** **** Lower case *)

Lemma assoc_cases (table : list (string * string)) (u : string) :
  Py.assoc table u = None ∨ ∃ v, Py.assoc table u = Some v ∧ v ∈ table.*2.
Proof.
  induction table as [|[k v] table IH]; simpl; [by left|].
  destruct (String.eqb k u).
  - right. exists v. split; [done|]. by left.
  - destruct IH as [?|(v' & ? & ?)]; [by left|].
    right. exists v'. split; [done|]. by right.
Qed.

Lemma sound_images :
  forallb sound_image Py.lower_table.*2 = true
  ∧ sound_image "ς" = true ∧ sound_image "σ" = true.
Proof. split_and!; by vm_compute. Qed.

(** The image of a code point is sound or the code point itself, which
    [lower] then leaves alone. *)
Lemma image_cases (before : list string) (u : string) (after : list string) :
  sound_image (image before u after) = true
  ∨ (image before u after = u
     ∧ String.eqb u Py.capital_sigma = false
     ∧ Py.assoc Py.lower_table u = None).
Proof.
  unfold image. destruct sound_images as (Ht & Hf & Hs).
  destruct (String.eqb u Py.capital_sigma) eqn:E.
  - left. by destruct (Py.final_sigma before after).
  - unfold Py.lower_char.
    destruct (assoc_cases Py.lower_table u) as [H|(v & H & Hv)]; rewrite H.
    + right. split_and!; reflexivity.
    + left. change (default u (Some v)) with v.
      eapply forallb_forall in Ht; [exact Ht|].
      apply list_elem_of_In. exact Hv.
Qed.

Lemma lower_chars_cons (before : list string) (u : string)
    (us : list string) :
  Py.lower_chars before (u :: us)
  = image before u us :: Py.lower_chars (u :: before) us.
Proof. reflexivity. Qed.

Lemma sound_image_facts (v : string) :
  sound_image v = true →
  v ≠ "" ∧ Py.utf8 v = true
  ∧ Forall (λ w, stable w = true ∧ Py.isspace w = false) (Py.chars v)
  ∧ mem_char "," v = false.
Proof.
  unfold sound_image.
  intros [[H1 H2]%andb_true_iff H3%negb_true_iff]%andb_true_iff.
  apply negb_true_iff, String.eqb_neq in H1.
  assert (H : Forall (λ w, stable w = true ∧ Py.isspace w = false)
                (Py.chars v)).
  { apply Forall_forall. intros w Hw%list_elem_of_In.
    eapply forallb_forall in H2; [|done].
    apply andb_true_iff in H2 as [? ?%negb_true_iff]. done. }
  split_and!; try done.
  unfold Py.utf8. apply forallb_forall. intros w Hw%list_elem_of_In.
  eapply Forall_forall in H as [H _]; [|done].
  unfold stable in H. by apply andb_true_iff in H as [[? _]%andb_true_iff _].
Qed.

Lemma stable_fixed (w : string) :
  stable w = true →
  Py.complete w = true ∧ ∀ before after, image before w after = w.
Proof.
  unfold stable.
  intros [[H1 H2%negb_true_iff]%andb_true_iff H3%bool_decide_eq_true]%andb_true_iff.
  split; [done|]. intros before after. unfold image, Py.lower_char.
  by rewrite H2, H3.
Qed.

Lemma lower_chars_stable (before ws : list string) :
  Forall (λ w, stable w = true) ws → Py.lower_chars before ws = ws.
Proof.
  intros H. revert before. induction H as [|w ws Hw _ IH]; intros before.
  - done.
  - rewrite lower_chars_cons, IH. f_equal. by apply stable_fixed.
Qed.

(** What lower-casing does to a list of code points, character by
    character. *)
Lemma lower_chars_images (before us : list string) :
  Forall (λ u, Py.complete u = true) us →
  Forall2 lowered us (Py.lower_chars before us).
Proof.
  intros H. revert before. induction H as [|u us Hu _ IH]; intros before.
  - constructor.
  - rewrite lower_chars_cons. constructor; [|apply IH]. unfold lowered.
    destruct (image_cases before u us) as [Hs|(-> & Hn & Ha)].
    + apply sound_image_facts in Hs as (? & ? & Hf & _).
      split_and!; try done.
      * eapply Forall_impl; [done|]. by intros ? [? _].
      * intros _. eapply Forall_impl; [done|]. by intros ? [_ ?].
    + rewrite (chars_complete u) by done.
      split_and!.
      * by destruct u.
      * unfold Py.utf8. rewrite (chars_complete u) by done. simpl.
        by rewrite Hu.
      * repeat constructor. unfold stable.
        by rewrite Hu, Hn, bool_decide_eq_true_2.
      * intros ?. by repeat constructor.
Qed.

Lemma chars_nonempty (v : string) : v ≠ "" → Py.chars v ≠ [].
Proof.
  destruct v as [|b0 s1]; [done|]. intros _. rewrite chars_unfold.
  destruct (Py.lead_len b0) as [|[|[|[|[|?]]]]]; try done.
  - destruct s1 as [|b1 s2]; [done|]. by destruct (Py.is_cont b1).
  - destruct s1 as [|b1 [|b2 s3]]; try done.
    by destruct (Py.is_cont b1 && Py.is_cont b2).
  - destruct s1 as [|b1 [|b2 [|b3 s4]]]; try done.
    by destruct (Py.is_cont b1 && Py.is_cont b2 && Py.is_cont b3).
Qed.

Lemma images_stable (us vs : list string) :
  Forall2 lowered us vs →
  Forall (λ w, stable w = true) (mjoin (Py.chars <$> vs)).
Proof.
  induction 1 as [|u v us vs (_ & _ & Hst & _) _ IH]; [done|].
  rewrite fmap_cons. simpl. by apply Forall_app.
Qed.

Lemma images_utf8 (us vs : list string) :
  Forall2 lowered us vs → Forall (λ v, Py.utf8 v = true) vs.
Proof.
  induction 1 as [|u v us vs (_ & H & _) _ IH]; by constructor.
Qed.

Lemma images_head (us vs : list string) (w : string) :
  Forall2 lowered us vs →
  (∀ u, head us = Some u → Py.isspace u = false) →
  head (mjoin (Py.chars <$> vs)) = Some w → Py.isspace w = false.
Proof.
  intros [|u v us' vs' (Hv & _ & _ & Hsp) _] Hh; [done|].
  rewrite fmap_cons. simpl.
  apply chars_nonempty in Hv. destruct (Py.chars v) as [|w0 ws]; [done|].
  simpl. intros [= <-]. specialize (Hsp (Hh u eq_refl)). by inversion Hsp.
Qed.

Lemma images_last (us vs : list string) (w : string) :
  Forall2 lowered us vs →
  (∀ u, last us = Some u → Py.isspace u = false) →
  last (mjoin (Py.chars <$> vs)) = Some w → Py.isspace w = false.
Proof.
  induction 1 as [|u v us vs (Hv & _ & _ & Hsp) Hi IH]; intros Hl; [done|].
  rewrite fmap_cons. simpl. rewrite last_app.
  destruct (last (mjoin (Py.chars <$> vs))) as [w'|] eqn:El.
  - intros [= <-]. apply IH; [|done].
    intros u0 Hu0. apply Hl. by rewrite last_cons, Hu0.
  - intros Hw. apply last_None in El.
    assert (vs = []) as ->.
    { destruct Hi as [|u1 v1 ? ? (Hv1 & _) _]; [done|]. exfalso.
      rewrite fmap_cons in El. simpl in El.
      apply app_eq_nil in El as [El _]. by apply chars_nonempty in Hv1. }
    inversion Hi; subst.
    specialize (Hsp (Hl u eq_refl)).
    apply last_Some_elem_of in Hw. by eapply Forall_forall in Hsp.
Qed.

Lemma Forall_sublist_of {A : Type} (P : A → Prop) (l k : list A) :
  sublist l k → Forall P k → Forall P l.
Proof.
  intros Hs Hk. apply Forall_forall. intros x Hx.
  eapply Forall_forall in Hk; [done|]. by eapply elem_of_sublist.
Qed.

(** The garment of a piece of text: its characters are stable, and the
    first and the last are no whitespace. *)
Lemma normalize_chars (p : string) :
  Py.utf8 p = true →
  ∃ ws, normalize p = Py.unchars ws
        ∧ Py.chars (normalize p) = ws
        ∧ Forall (λ w, stable w = true) ws
        ∧ (∀ w, head ws = Some w → Py.isspace w = false)
        ∧ (∀ w, last ws = Some w → Py.isspace w = false).
Proof.
  intros Hp%utf8_chars.
  set (us := Py.rstrip_chars (Py.lstrip_chars (Py.chars p))).
  assert (Hus : Forall (λ u, Py.complete u = true) us).
  { eapply Forall_sublist_of; [apply strip_chars_sublist|done]. }
  assert (Hn : normalize p = Py.unchars (Py.lower_chars [] us)).
  { unfold normalize, Py.lower, Py.strip. fold us. by rewrite chars_unchars. }
  pose proof (lower_chars_images [] us Hus) as Hi.
  exists (mjoin (Py.chars <$> Py.lower_chars [] us)).
  rewrite Hn, unchars_mjoin_chars. split_and!.
  - done.
  - apply chars_unchars_texts. by eapply images_utf8.
  - by eapply images_stable.
  - intros w. eapply images_head; [done|].
    intros u. apply rstrip_chars_head. intros u0. apply lstrip_chars_head.
  - intros w. eapply images_last; [done|].
    intros u. apply rstrip_chars_last.
Qed.

(** A garment is trimmed and in lower case. *)
Lemma normalize_fixed (p : string) :
  Py.utf8 p = true →
  Py.strip (normalize p) = normalize p
  ∧ Py.lower (normalize p) = normalize p
  ∧ Py.utf8 (normalize p) = true.
Proof.
  intros (ws & Hn & Hc & Hst & Hh & Hl)%normalize_chars.
  unfold Py.strip, Py.lower. rewrite Hc.
  rewrite lstrip_chars_fixed, rstrip_chars_fixed, lower_chars_stable by done.
  split_and!; try done.
  rewrite Hn. apply chars_utf8.
  eapply Forall_impl; [done|]. intros w Hw. exact (proj1 (stable_fixed w Hw)).
Qed.

Lemma normalize_idem (p : string) :
  Py.utf8 p = true → normalize (normalize p) = normalize p.
Proof.
  intros (Hs & Hl & _)%normalize_fixed. unfold normalize at 1.
  by rewrite Hs, Hl.
Qed.

Lemma normalize_space (p : string) :
  normalize (String " " p) = normalize p.
Proof. reflexivity. Qed.

(** **** Commas *)

Lemma mem_char_app (c : ascii) (s t : string) :
  mem_char c (s +:+ t) = mem_char c s || mem_char c t.
Proof.
  induction s as [|a s IH]; [done|].
  rewrite app_String. simpl. by rewrite IH, orb_assoc.
Qed.

Lemma mem_char_unchars (c : ascii) (us : list string) :
  mem_char c (Py.unchars us) = false ↔ Forall (λ u, mem_char c u = false) us.
Proof.
  induction us as [|u us IH]; [done|].
  rewrite unchars_cons, mem_char_app, orb_false_iff, IH, Forall_cons. done.
Qed.

Lemma mem_char_lower_chars (before us : list string) :
  Forall (λ u, mem_char "," u = false) us →
  Forall (λ u, mem_char "," u = false) (Py.lower_chars before us).
Proof.
  intros H. revert before. induction H as [|u us Hu _ IH]; intros before.
  - constructor.
  - rewrite lower_chars_cons. constructor; [|apply IH].
    destruct (image_cases before u us) as [Hs|(-> & _)]; [|done].
    by apply sound_image_facts in Hs as (_ & _ & _ & ?).
Qed.

Lemma mem_char_normalize (p : string) :
  mem_char "," p = false → mem_char "," (normalize p) = false.
Proof.
  intros H. unfold normalize, Py.lower, Py.strip.
  assert (Hc : Forall (λ u, mem_char "," u = false)
                 (Py.rstrip_chars (Py.lstrip_chars (Py.chars p)))).
  { eapply Forall_sublist_of; [apply strip_chars_sublist|].
    apply mem_char_unchars. by rewrite unchars_chars. }
  apply mem_char_unchars, mem_char_lower_chars.
  apply mem_char_unchars. rewrite unchars_chars.
  by apply mem_char_unchars.
Qed.

Lemma split_nonempty (sep : ascii) (s : string) : Py.split sep s ≠ [].
Proof.
  destruct s as [|c s]; [done|]. simpl.
  destruct (Ascii.eqb c sep); [done|]. by destruct (Py.split sep s).
Qed.

Lemma split_pieces (sep : ascii) (s : string) :
  Forall (λ p, mem_char sep p = false) (Py.split sep s).
Proof.
  induction s as [|c s IH]; simpl.
  - by repeat constructor.
  - destruct (Ascii.eqb c sep) eqn:E.
    + by constructor.
    + destruct (Py.split sep s) as [|p ps].
      * repeat constructor. simpl. by rewrite E.
      * inversion IH as [|? ? Hp Hps]; subst. constructor; [|done].
        simpl. by rewrite E, Hp.
Qed.

Lemma split_no_sep (sep : ascii) (p : string) :
  mem_char sep p = false → Py.split sep p = [p].
Proof.
  induction p as [|a p IH]; [done|]. simpl.
  intros [Ha Hp]%orb_false_iff. by rewrite Ha, IH.
Qed.

Lemma split_app_sep (sep : ascii) (p q : string) :
  mem_char sep p = false →
  Py.split sep (p +:+ String sep q) = p :: Py.split sep q.
Proof.
  induction p as [|a p IH].
  - intros _. rewrite app_empty_l. simpl. by rewrite Ascii.eqb_refl.
  - intros [Ha Hp]%orb_false_iff.
    rewrite app_String. simpl. by rewrite Ha, IH.
Qed.

Lemma split_join (l : list string) :
  l ≠ [] → Forall (λ p, mem_char "," p = false) l →
  Py.split "," (Py.join ", " l) = respace l.
Proof.
  induction l as [|x [|y t] IH]; intros Hne Hl; [done|..].
  - simpl. apply split_no_sep. by inversion Hl.
  - inversion Hl as [|? ? Hx Hyt]; subst.
    change (Py.join ", " (x :: y :: t))
      with (x +:+ String "," (String " " (Py.join ", " (y :: t)))).
    rewrite split_app_sep by done.
    change (Py.split "," (String " " (Py.join ", " (y :: t))))
      with (match Py.split "," (Py.join ", " (y :: t)) with
            | [] => [String " " ""]
            | p :: ps => String " " p :: ps
            end).
    by rewrite IH.
Qed.

Lemma normalize_respace (l : list string) :
  normalize <$> respace l = normalize <$> l.
Proof.
  destruct l as [|x t]; [done|]. unfold respace. rewrite !fmap_cons. f_equal.
  induction t as [|y t IH]; [done|].
  by rewrite !fmap_cons, IH, normalize_space.
Qed.

(** **** Pieces of a text *)

Lemma lead_len_comma (b : ascii) :
  Py.lead_len b ≠ 1 → Ascii.eqb b "," = false.
Proof. by destruct b as [[] [] [] [] [] [] [] []]. Qed.

Lemma is_cont_comma (b : ascii) :
  Py.is_cont b = true → Ascii.eqb b "," = false.
Proof. by destruct b as [[] [] [] [] [] [] [] []]. Qed.

(** The comma is the only code point with a comma among its bytes. *)
Lemma complete_comma (u : string) :
  Py.complete u = true → mem_char "," u = false ∨ u = ",".
Proof.
  destruct u as [|b0 [|b1 [|b2 [|b3 [|b4 u]]]]]; intros H; simpl in H;
    try done.
  - simpl. destruct (Ascii.eqb_spec b0 ",") as [->|_]; [by right|by left].
  - apply andb_true_iff in H as [H H1]. apply Nat.eqb_eq in H.
    left. simpl. rewrite lead_len_comma, is_cont_comma; [done..|].
    by rewrite H.
  - apply andb_true_iff in H as [[H H1]%andb_true_iff H2].
    apply Nat.eqb_eq in H.
    left. simpl. rewrite lead_len_comma, !is_cont_comma; [done..|].
    by rewrite H.
  - apply andb_true_iff in H
      as [[[H H1]%andb_true_iff H2]%andb_true_iff H3].
    apply Nat.eqb_eq in H.
    left. simpl. rewrite lead_len_comma, !is_cont_comma; [done..|].
    by rewrite H.
Qed.

Lemma split_app_nosep (sep : ascii) (u r : string) :
  mem_char sep u = false →
  Py.split sep (u +:+ r)
  = (u +:+ hd "" (Py.split sep r)) :: tl (Py.split sep r).
Proof.
  induction u as [|a u IH].
  - intros _. rewrite !app_empty_l.
    pose proof (split_nonempty sep r). by destruct (Py.split sep r).
  - intros [Ha Hu]%orb_false_iff.
    rewrite !app_String. simpl. by rewrite Ha, (IH Hu).
Qed.

Lemma utf8_cons (u p : string) :
  Py.complete u = true → Py.utf8 p = true → Py.utf8 (u +:+ p) = true.
Proof.
  intros Hu Hp. unfold Py.utf8 in *. rewrite chars_complete_app by done.
  simpl. by rewrite Hu.
Qed.

(** The pieces of a text between its commas are texts. *)
Lemma split_utf8 (s : string) :
  Py.utf8 s = true → Forall (λ p, Py.utf8 p = true) (Py.split "," s).
Proof.
  intros H%utf8_chars. rewrite <- (unchars_chars s).
  induction H as [|u us Hu _ IH].
  - by repeat constructor.
  - rewrite unchars_cons.
    destruct (complete_comma u Hu) as [Hc| ->].
    + rewrite split_app_nosep by done.
      pose proof (split_nonempty "," (Py.unchars us)) as Hne.
      destruct (Py.split "," (Py.unchars us)) as [|p ps]; [done|].
      apply Forall_cons in IH as [Hp Hps]. simpl.
      constructor; [by apply utf8_cons|done].
    + rewrite app_String, app_empty_l. simpl. by constructor.
Qed.

End SplitJoin.

(** C5.  Splitting on commas, trimming and lower-casing is idempotent:
    for every text, joining the pieces with ", " and splitting again gives
    the same list. *)
Theorem items_join_idempotent (clothes_text : string) :
  Py.utf8 clothes_text = true →
  items (Py.join ", " (items clothes_text)) = items clothes_text.
Proof.
  intros Hu. unfold items. fold normalize.
  rewrite split_join.
  - rewrite normalize_respace, <- list_fmap_compose.
    apply Forall_fmap_ext_1.
    eapply Forall_impl; [by apply split_utf8|].
    intros p Hp. simpl. by apply normalize_idem.
  - intros H%fmap_nil_inv. by apply split_nonempty in H.
  - apply Forall_fmap. eapply Forall_impl; [apply split_pieces|].
    intros p Hp. simpl. by apply mem_char_normalize.
Qed.

Lemma items_join_idempotent_witness :
  items (Py.join ", " (items " Blue JEANS , ÉCHARPE ΟΔΟΣ　, PINK Scarf,"))
  = items " Blue JEANS , ÉCHARPE ΟΔΟΣ　, PINK Scarf,".
Proof.
  apply items_join_idempotent. by vm_compute.
Defined.

(** C10.  When the tops or the bottoms bucket is not empty, the outfit line
    is the template followed by " Use your ", the tops and then the bottoms
    joined with ", ", and a full stop; the names listed are garments in
    their trimmed, lower-cased form. *)
Theorem use_your_clause (event clothes_text : string) :
  let cats := categorize (items clothes_text) in
  bucket cats "tops" ≠ [] ∨ bucket cats "bottoms" ≠ [] →
  outfit_line event clothes_text
    = (event_templates event).1.1 +:+ " Use your " +:+
      Py.join ", " (bucket cats "tops" ++ bucket cats "bottoms") +:+ "."
  ∧ bucket cats "tops"
    = filter (λ it, bucket_of it = "tops") (items clothes_text)
  ∧ bucket cats "bottoms"
    = filter (λ it, bucket_of it = "bottoms") (items clothes_text)
  ∧ ∀ name, name ∈ bucket cats "tops" ++ bucket cats "bottoms" →
      ∃ piece, piece ∈ Py.split "," clothes_text
               ∧ name = Py.lower (Py.strip piece).
Proof.
  intros cats H. split_and!.
  - unfold outfit_line. fold cats.
    destruct H as [H|H].
    + by destruct (bucket cats "tops").
    + destruct (bucket cats "bottoms"); [done|].
      by destruct (bucket cats "tops").
  - apply bucket_categorize.
  - apply bucket_categorize.
  - intros name. subst cats.
    rewrite !bucket_categorize, elem_of_app, !list_elem_of_filter.
    intros [[_ Hi]|[_ Hi]]; unfold items in Hi;
      apply list_elem_of_fmap in Hi as (piece & -> & Hp); eauto.
Qed.

Lemma use_your_clause_witness :
  outfit_line "Picnic" " Blue JEANS , Hat,T-Shirt"
  = "Comfortable and confident: Mix and match your clothes." +:+
    " Use your t-shirt, blue jeans.".
Proof.
  apply (use_your_clause "Picnic" " Blue JEANS , Hat,T-Shirt").
  left. by vm_compute.
Defined.

(** ** The web application *)

(** What [call_openai] does, case by case. *)
Lemma call_openai_unconfigured (env : Env) (event clothes_text : string)
    (temperature : Q) (w : World) :
  Py.truthy (OPENAI_API_KEY env) = false ∨ OpenAI env = false →
  call_openai env event clothes_text temperature w = (Val None, w).
Proof.
  unfold call_openai. intros [->| ->]; [done|].
  by destruct (Py.truthy _).
Qed.

Lemma request_bounds (attempt : nat → Attempt) (retries n : nat) :
  (1 <= (request attempt retries n).1 <= S retries)%nat.
Proof.
  revert n. induction retries as [|r IH]; intros n; simpl.
  - destruct (attempt n); simpl; lia.
  - destruct (attempt n) as [|[] e]; simpl; [lia| |lia].
    specialize (IH (S n)). lia.
Qed.

Lemma request_final (attempt : nat → Attempt) (retries n : nat) :
  (∀ e, attempt n ≠ Failed true e) → (request attempt retries n).1 = 1.
Proof.
  intros H. destruct retries; simpl;
    destruct (attempt n) as [|[] e] eqn:E; try done; by destruct (H e).
Qed.

Lemma http_requests_bounds (env : Env) (req : ChatRequest) :
  (1 <= http_requests env req <= S max_retries)%nat.
Proof. apply request_bounds. Qed.

Lemma call_openai_total (env : Env) (event clothes_text : string)
    (temperature : Q) (w : World) :
  (∃ v, (call_openai env event clothes_text temperature w).1 = Val v)
  ∧ db (call_openai env event clothes_text temperature w).2 = db w
  ∧ session (call_openai env event clothes_text temperature w).2 = session w
  ∧ (sent (call_openai env event clothes_text temperature w).2 = sent w
     ∨ ∃ req, sent (call_openai env event clothes_text temperature w).2
              = sent w ++ replicate (http_requests env req) req).
Proof.
  unfold call_openai.
  destruct (negb _ || negb _); [simpl; eauto 10|].
  run. destruct (new_client env _); [|simpl; eauto 10].
  destruct (chat_completions_create env _) as [[|[text|] ?]|];
    simpl; eauto 10.
Qed.

Lemma call_openai_client_fails (env : Env) (event clothes_text : string)
    (temperature : Q) (w : World) (e : PyExc) :
  Py.truthy (OPENAI_API_KEY env) = true → OpenAI env = true →
  new_client env (str_of (OPENAI_API_KEY env)) = Raise e →
  (call_openai env event clothes_text temperature w).1 = Val None
  ∧ sent (call_openai env event clothes_text temperature w).2 = sent w.
Proof.
  intros Hk Ho Hc. unfold call_openai. rewrite Hk, Ho. simpl.
  run. by rewrite Hc.
Qed.

Lemma call_openai_remote_fails (env : Env) (event clothes_text : string)
    (temperature : Q) (w : World) :
  let req := {| req_model := "gpt-3.5-turbo";
                req_content := prompt event clothes_text;
                req_temperature := temperature;
                req_max_tokens := 150 |} in
  Py.truthy (OPENAI_API_KEY env) = true → OpenAI env = true →
  new_client env (str_of (OPENAI_API_KEY env)) = Val () →
  (∃ e, chat_completions_create env req = Raise e)
  ∨ chat_completions_create env req = Val []
  ∨ (∃ rest, chat_completions_create env req = Val (None :: rest)) →
  (call_openai env event clothes_text temperature w).1 = Val None
  ∧ sent (call_openai env event clothes_text temperature w).2
    = sent w ++ replicate (http_requests env req) req.
Proof.
  intros req Hk Ho Hc H. unfold call_openai. rewrite Hk, Ho. simpl.
  run. rewrite Hc. fold req.
  destruct H as [[e ->]|[->|[rest ->]]]; done.
Qed.

Lemma index_falls_back (env : Env) (w : World) (form : gmap string string)
    (event clothes_text : string) :
  form !! "event" = Some event → form !! "clothes" = Some clothes_text →
  event ≠ "" → clothes_text ≠ "" → form !! "use_ai" = Some "on" →
  (call_openai env event clothes_text (7 # 10) w).1 = Val None →
  index env "POST" form w
  = (Val (index_page (Some (suggest_rule_based event clothes_text))
                     (Some ai_unavailable)),
     (call_openai env event clothes_text (7 # 10) w).2).
Proof.
  intros He Hc Hne Hnc Hai Hcall. unfold index.
  change (String.eqb "POST" "POST") with true. cbv iota.
  rewrite He, Hc, Hai.
  destruct event as [|a event]; [done|].
  destruct clothes_text as [|b clothes_text]; [done|].
  rewrite bool_decide_eq_true_2 by done.
  change (negb (Py.truthy (Some (String a event)))
          || negb (Py.truthy (Some (String b clothes_text)))) with false.
  cbv iota. change (str_of (Some ?s)) with s. run.
  destruct (call_openai env _ _ _ w) as [r w'].
  simpl in Hcall. by subst r.
Qed.

(** C6, as the code has it.  The gateway hands its caller a value in every
    case, never an exception.  Without an API key or without the client
    library it answers [None] and sends nothing; when building the client,
    the call of the client or reading the answer fails it answers [None] as
    well.  It calls the client once and repeats nothing itself, but the
    client is built with its default retries: the one call sends one
    request when the first is answered or fails for good, and up to three
    when failures are retryable.  On [None], a suggestion request that
    asked for AI is answered with the rule-based suggestion and the
    AI-unavailable notice. *)
Theorem gateway_contract (env : Env) (w : World) (form : gmap string string)
    (event clothes_text : string) :
  form !! "event" = Some event → form !! "clothes" = Some clothes_text →
  event ≠ "" → clothes_text ≠ "" → form !! "use_ai" = Some "on" →
  let out := call_openai env event clothes_text (7 # 10) w in
  let req := {| req_model := "gpt-3.5-turbo";
                req_content := prompt event clothes_text;
                req_temperature := 7 # 10;
                req_max_tokens := 150 |} in
  (∃ v, out.1 = Val v)
  ∧ (sent out.2 = sent w
     ∨ sent out.2 = sent w ++ replicate (http_requests env req) req)
  ∧ (1 <= http_requests env req <= 3)%nat
  ∧ ((∀ e, http_attempt env req 0 ≠ Failed true e) →
     http_requests env req = 1)
  ∧ (Py.truthy (OPENAI_API_KEY env) = false ∨ OpenAI env = false →
     out = (Val None, w))
  ∧ (Py.truthy (OPENAI_API_KEY env) = true → OpenAI env = true →
     (∃ e, new_client env (str_of (OPENAI_API_KEY env)) = Raise e) →
     out.1 = Val None ∧ sent out.2 = sent w)
  ∧ (Py.truthy (OPENAI_API_KEY env) = true → OpenAI env = true →
     new_client env (str_of (OPENAI_API_KEY env)) = Val () →
     (∃ e, chat_completions_create env req = Raise e)
     ∨ chat_completions_create env req = Val []
     ∨ (∃ rest, chat_completions_create env req = Val (None :: rest)) →
     out.1 = Val None
     ∧ sent out.2 = sent w ++ replicate (http_requests env req) req)
  ∧ (out.1 = Val None →
     index env "POST" form w
     = (Val (index_page (Some (suggest_rule_based event clothes_text))
                        (Some ai_unavailable)),
        out.2)).
Proof.
  intros He Hc Hne Hnc Hai out req. split_and!.
  - apply call_openai_total.
  - subst out. unfold call_openai.
    destruct (negb _ || negb _); [by left|].
    run. destruct (new_client env _); [|by left].
    fold req. destruct (chat_completions_create env req) as [[|[text|] ?]|];
      by right.
  - apply http_requests_bounds.
  - apply http_requests_bounds.
  - apply request_final.
  - apply call_openai_unconfigured.
  - intros Hk Ho [e Hcl]. by eapply call_openai_client_fails.
  - intros Hk Ho Hcl H. by apply call_openai_remote_fails.
  - by apply index_falls_back.
Qed.

Lemma gateway_contract_witness :
  index keyed_env "POST" ai_form empty_world
  = (Val (index_page (Some (suggest_rule_based "Party" "red dress"))
                     (Some ai_unavailable)),
     (call_openai keyed_env "Party" "red dress" (7 # 10) empty_world).2).
Proof.
  destruct (gateway_contract keyed_env empty_world ai_form "Party" "red dress")
    as (_ & _ & _ & _ & _ & _ & _ & H);
    [reflexivity|reflexivity|done|done|reflexivity|].
  apply H. reflexivity.
Defined.

(** With an API key and a remote end that keeps failing with a connection
    error, the one suggestion request makes the client send three HTTP
    requests, not one. *)
Lemma gateway_sends_three_requests :
  (call_openai keyed_env "Party" "red dress" (7 # 10) empty_world).1
  = Val None
  ∧ sent (call_openai keyed_env "Party" "red dress" (7 # 10) empty_world).2
    = replicate 3 (suggestion_request "Party" "red dress")
  ∧ ¬ (length (sent (call_openai keyed_env "Party" "red dress" (7 # 10)
                       empty_world).2) <= 1)%nat.
Proof.
  split_and!; [by vm_compute|by vm_compute|].
  assert (E : length (sent (call_openai keyed_env "Party" "red dress" (7 # 10)
                              empty_world).2) = 3) by by vm_compute.
  rewrite E. lia.
Qed.

(** *** Signing up *)

Lemma username_taken_app (u : string) (rows1 rows2 : list Row) :
  username_taken u (rows1 ++ rows2)
  = username_taken u rows1 || username_taken u rows2.
Proof. apply existsb_app. Qed.

Lemma select_by_username_fresh (u : string) (rows : list Row) (r : Row) :
  username_taken u rows = false → row_username r = u →
  select_by_username (Some u) (rows ++ [r]) = Some r.
Proof.
  intros Hf Hr. unfold select_by_username.
  induction rows as [|r0 rows IH]; simpl in *.
  - by rewrite Hr, String.eqb_refl.
  - apply orb_false_iff in Hf as [-> Hf]. by apply IH.
Qed.

Lemma signup_fresh (env : Env) (w : World) (form : gmap string string)
    (u p : string) :
  form !! "username" = Some u → form !! "password" = Some p →
  u ≠ "" → p ≠ "" → username_taken u (db w) = false →
  signup env "POST" form w = (Val (Redirect "login"), signed_up env u p w).
Proof.
  intros Hu Hp Hnu Hnp Hf. unfold signup.
  change (String.eqb "POST" "POST") with true. cbv iota.
  rewrite Hu, Hp.
  destruct u as [|a u]; [done|]. destruct p as [|b p]; [done|].
  change (negb (Py.truthy (Some (String a u)))
          || negb (Py.truthy (Some (String b p)))) with false.
  cbv iota. change (str_of (Some ?s)) with s. run. simpl.
  by rewrite Hf.
Qed.

Lemma signup_taken (env : Env) (w : World) (form : gmap string string)
    (u p : string) :
  form !! "username" = Some u → form !! "password" = Some p →
  u ≠ "" → p ≠ "" → username_taken u (db w) = true →
  signup env "POST" form w
  = (Val (Render "signup.html" ∅),
     {| db := db w; session := session w;
        flashes := flashes w ++ ["Username already taken."];
        stdout := stdout w; sent := sent w; rng := S (rng w) |}).
Proof.
  intros Hu Hp Hnu Hnp Hf. unfold signup.
  change (String.eqb "POST" "POST") with true. cbv iota.
  rewrite Hu, Hp.
  destruct u as [|a u]; [done|]. destruct p as [|b p]; [done|].
  change (negb (Py.truthy (Some (String a u)))
          || negb (Py.truthy (Some (String b p)))) with false.
  cbv iota. change (str_of (Some ?s)) with s. run. simpl.
  by rewrite Hf.
Qed.

(** C7.  Signing up under a fresh username succeeds and stores the output of
    the password hash, which is not the password; signing up again under
    the same username fails with the duplicate message and leaves the table
    and the session as they were, so the first user's stored hash stays.
    The same failure meets any table that already has the username. *)
Theorem signup_duplicate_username (env : Env) (w : World) (u p1 p2 : string) :
  u ≠ "" → p1 ≠ "" → p2 ≠ "" →
  username_taken u (db w) = false →
  generate_password_hash env (rng w) p1 ≠ p1 →
  let first := signup env "POST" (credentials u p1) w in
  let second := signup env "POST" (credentials u p2) first.2 in
  let stored := {| row_id := next_rowid (db w);
                   row_username := u;
                   row_password := generate_password_hash env (rng w) p1 |} in
  first.1 = Val (Redirect "login")
  ∧ db first.2 = db w ++ [stored]
  ∧ row_password stored ≠ p1
  ∧ second.1 = Val (Render "signup.html" ∅)
  ∧ flashes second.2 = flashes first.2 ++ ["Username already taken."]
  ∧ db second.2 = db first.2
  ∧ session second.2 = session first.2
  ∧ select_by_username (Some u) (db second.2) = Some stored
  ∧ (∀ w0 p, p ≠ "" → username_taken u (db w0) = true →
       (signup env "POST" (credentials u p) w0).1
         = Val (Render "signup.html" ∅)
       ∧ db (signup env "POST" (credentials u p) w0).2 = db w0
       ∧ session (signup env "POST" (credentials u p) w0).2 = session w0).
Proof.
  intros Hu Hp1 Hp2 Hf Hh first second stored.
  assert (H1 : first = (Val (Redirect "login"), signed_up env u p1 w)).
  { subst first. by apply signup_fresh. }
  assert (Ht : username_taken u (db (signed_up env u p1 w)) = true).
  { simpl. rewrite username_taken_app. simpl.
    by rewrite String.eqb_refl, orb_true_r. }
  assert (H2 : second.2 = with_flash "Username already taken."
                 {| db := db first.2; session := session first.2;
                    flashes := flashes first.2; stdout := stdout first.2;
                    sent := sent first.2; rng := S (rng first.2) |}
               ∧ second.1 = Val (Render "signup.html" ∅)).
  { subst second. rewrite H1. simpl.
    by erewrite signup_taken. }
  destruct H2 as [H2 H3]. rewrite H2, H1. simpl.
  split_and!; try done.
  - by apply select_by_username_fresh.
  - intros w0 p Hp Hw0.
    by erewrite signup_taken.
Qed.

Lemma signup_duplicate_username_witness :
  (signup offline_env "POST" (credentials "alice" "pw2")
     (signup offline_env "POST" (credentials "alice" "pw1") empty_world).2).1
  = Val (Render "signup.html" ∅).
Proof.
  apply (signup_duplicate_username offline_env empty_world "alice" "pw1" "pw2");
    by vm_compute.
Defined.

(** *** The profile page *)

(** A session whose [user_id] has no row makes the view raise: the
    [TypeError] of [c.fetchone()[0]] leaves [profile] unhandled. *)
Lemma profile_unknown_id (w : World) (uid : Z) :
  session w !! "user_id" = Some uid →
  select_username_by_id uid (db w) = None →
  profile w = (Raise none_type_error, w).
Proof.
  intros Hs Hd. unfold profile. run. by rewrite Hs, Hd.
Qed.

Lemma profile_known_id (w : World) (uid : Z) (username : string) :
  session w !! "user_id" = Some uid →
  select_username_by_id uid (db w) = Some username →
  profile w = (Val (Render "profile.html" (<["username" := Some username]> ∅)), w).
Proof.
  intros Hs Hd. unfold profile. run. by rewrite Hs, Hd.
Qed.

(** C8.  With [user_id] 7 in the session and no such row in the table, the
    profile view does not answer with a recoverable error: it raises
    [TypeError]. *)
Theorem profile_dangling_session :
  session dangling_world !! "user_id" = Some 7%Z
  ∧ select_username_by_id 7 (db dangling_world) = None
  ∧ profile dangling_world = (Raise none_type_error, dangling_world).
Proof.
  split_and!; [done|done|]. by apply (profile_unknown_id _ 7).
Qed.

(** *** Logging in *)

Lemma login_no_user (env : Env) (w : World) (form : gmap string string) :
  select_by_username (form !! "username") (db w) = None →
  login env "POST" form w = invalid_login w.
Proof.
  intros H. unfold login.
  change (String.eqb "POST" "POST") with true. cbv iota.
  run. by rewrite H.
Qed.

Lemma login_check (env : Env) (w : World) (form : gmap string string)
    (user : Row) :
  select_by_username (form !! "username") (db w) = Some user →
  check_password_hash env (row_password user) (form !! "password")
    = Val false →
  login env "POST" form w = invalid_login w.
Proof.
  intros H Hc. unfold login.
  change (String.eqb "POST" "POST") with true. cbv iota.
  run. by rewrite H, Hc.
Qed.

Lemma login_check_raises (env : Env) (w : World) (form : gmap string string)
    (user : Row) (e : PyExc) :
  select_by_username (form !! "username") (db w) = Some user →
  check_password_hash env (row_password user) (form !! "password")
    = Raise e →
  login env "POST" form w = (Raise e, w).
Proof.
  intros H Hc. unfold login.
  change (String.eqb "POST" "POST") with true. cbv iota.
  run. by rewrite H, Hc.
Qed.

(** C9.  A login request that names the stored user alice and has no
    password field is not answered with the generic message: the lookup
    finds alice, the password check is called on the absent password, and
    its [AttributeError] leaves the view unhandled, with nothing flashed.
    Without a username the lookup finds no one and the generic message is
    given. *)
Theorem login_missing_password_raises :
  (<["username" := "alice"]> ∅ : gmap string string) !! "password" = None
  ∧ select_by_username (Some "alice") (db alice_world)
    = Some {| row_id := 1; row_username := "alice";
              row_password := sample_hash 0 "pw1" |}
  ∧ login offline_env "POST" (<["username" := "alice"]> ∅) alice_world
    = (Raise {| exc_class := "AttributeError";
                exc_msg := "'NoneType' object has no attribute 'encode'" |},
       alice_world)
  ∧ login offline_env "POST" (<["username" := "alice"]> ∅) alice_world
    ≠ invalid_login alice_world
  ∧ login offline_env "POST" (<["password" := "pw1"]> ∅) alice_world
    = invalid_login alice_world.
Proof.
  split_and!; by vm_compute.
Qed.

(** * Further properties of the program *)

(** ** The rule engine *)

Lemma concat_nils {A B : Type} (keys : list B) :
  concat ((λ _, @nil A) <$> keys) = [].
Proof. induction keys as [|k keys IH]; [done|]. by rewrite fmap_cons. Qed.

Lemma concat_insert_absent (x b : string) (g : string → list string)
    (keys : list string) :
  b ∉ keys →
  concat ((λ k, if decide (b = k) then x :: g k else g k) <$> keys)
  = concat (g <$> keys).
Proof.
  induction keys as [|k keys IH]; [done|].
  intros [Hk Hks]%not_elem_of_cons. rewrite !fmap_cons. simpl.
  rewrite decide_False by done. by rewrite IH.
Qed.

Lemma concat_insert_present (x b : string) (g : string → list string)
    (keys : list string) :
  NoDup keys → b ∈ keys →
  concat ((λ k, if decide (b = k) then x :: g k else g k) <$> keys)
  ≡ₚ x :: concat (g <$> keys).
Proof.
  induction keys as [|k keys IH]; intros Hnd Hb.
  - by apply elem_of_nil in Hb.
  - apply NoDup_cons in Hnd as [Hk Hnd]. rewrite !fmap_cons. simpl.
    destruct (decide (b = k)) as [->|Hne].
    + by rewrite concat_insert_absent.
    + apply elem_of_cons in Hb as [?|Hb]; [done|].
      rewrite IH by done. by rewrite Permutation_middle.
Qed.

Lemma concat_filter_keys (keys its : list string) :
  NoDup keys → (∀ it, it ∈ its → bucket_of it ∈ keys) →
  concat ((λ k, filter (λ it, bucket_of it = k) its) <$> keys) ≡ₚ its.
Proof.
  intros Hnd. induction its as [|x its IH]; intros Hin.
  - change (concat ((λ _, @nil string) <$> keys) ≡ₚ []).
    by rewrite concat_nils.
  - set (g := λ k, filter (λ it, bucket_of it = k) its).
    assert (E : concat ((λ k, filter (λ it, bucket_of it = k) (x :: its)) <$> keys)
                = concat ((λ k, if decide (bucket_of x = k)
                                then x :: g k else g k) <$> keys)).
    { reflexivity. }
    rewrite E, concat_insert_present by (done || apply Hin; by left).
    apply perm_skip, IH. intros. apply Hin. by right.
Qed.

(** X2.  The six buckets together hold the garments of the input, each as
    often as it occurs there: nothing is dropped and nothing is listed
    twice. *)
Theorem buckets_partition_items (clothes_text : string) :
  all_buckets (categorize (items clothes_text)) ≡ₚ items clothes_text.
Proof.
  unfold all_buckets.
  assert (E : bucket (categorize (items clothes_text)) <$> bucket_keys
              = (λ k, filter (λ it, bucket_of it = k) (items clothes_text))
                <$> bucket_keys).
  { apply list_fmap_ext. intros _ k _. apply bucket_categorize. }
  rewrite E. apply concat_filter_keys.
  - apply (bool_decide_unpack (NoDup bucket_keys)). by vm_compute.
  - intros. apply bucket_of_key.
Qed.

Lemma length_split (sep : ascii) (s : string) :
  length (Py.split sep s) = S (count_char sep s).
Proof.
  induction s as [|c s IH]; [done|]. simpl.
  destruct (Ascii.eqb c sep); simpl; [by rewrite IH|].
  destruct (Py.split sep s); simpl in *; lia.
Qed.

(** X3.  A text with n commas gives n + 1 garments, empty ones included;
    each garment is free of commas, is left as it is by [strip] and by
    [lower], and is a text again. *)
Theorem items_shape (clothes_text : string) :
  Py.utf8 clothes_text = true →
  length (items clothes_text) = S (count_char "," clothes_text)
  ∧ Forall (λ it, mem_char "," it = false ∧ Py.strip it = it
                  ∧ Py.lower it = it ∧ Py.utf8 it = true)
           (items clothes_text).
Proof.
  intros Hu. split.
  - unfold items. by rewrite length_fmap, length_split.
  - unfold items. fold normalize. apply Forall_fmap.
    pose proof (split_utf8 clothes_text Hu) as Hv.
    pose proof (split_pieces "," clothes_text) as Hc.
    induction Hv as [|p ps Hp _ IH]; [constructor|].
    apply Forall_cons in Hc as [Hpc Hc].
    constructor; [|by apply IH]. simpl.
    destruct (normalize_fixed p Hp) as (? & ? & ?).
    split_and!; try done. by apply mem_char_normalize.
Qed.

Lemma items_shape_witness :
  length (items " Blue JEANS , ÉCHARPE ΟΔΟΣ　, PINK Scarf,") = 4.
Proof.
  apply (items_shape " Blue JEANS , ÉCHARPE ΟΔΟΣ　, PINK Scarf,"). by vm_compute.
Defined.

(** ** The users table under the handlers *)

Lemma signup_db_cases (env : Env) (method : string)
    (form : gmap string string) (w : World) :
  db (signup env method form w).2 = db w
  ∨ ∃ u h, username_taken u (db w) = false
           ∧ db (signup env method form w).2
             = db w ++ [{| row_id := next_rowid (db w); row_username := u;
                           row_password := h |}].
Proof.
  unfold signup. destruct (String.eqb method "POST"); [|by left].
  destruct (negb _ || negb _); [by left|].
  run. simpl. destruct (username_taken _ (db w)) eqn:E; [by left|].
  right. eauto.
Qed.

Lemma username_taken_false (u : string) (rows : list Row) :
  username_taken u rows = false → u ∉ row_username <$> rows.
Proof.
  induction rows as [|r rows IH]; simpl.
  - intros _. apply not_elem_of_nil.
  - intros [Hr Hrows]%orb_false_iff.
    apply not_elem_of_cons. split; [|by apply IH].
    apply String.eqb_neq in Hr. congruence.
Qed.

Lemma foldr_max_above (base : Z) (rows : list Row) :
  (base <= foldr (λ r m, Z.max (row_id r) m) base rows)%Z
  ∧ ∀ r, r ∈ rows →
         (row_id r <= foldr (λ r m, Z.max (row_id r) m) base rows)%Z.
Proof.
  induction rows as [|r0 rows [IH1 IH2]]; simpl.
  - split; [lia|]. by intros r ?%elem_of_nil.
  - split; [lia|]. intros r [->|Hr]%elem_of_cons; [lia|].
    specialize (IH2 r Hr). lia.
Qed.

Lemma next_rowid_above (rows : list Row) (r : Row) :
  r ∈ rows → (row_id r < next_rowid rows)%Z.
Proof.
  destruct rows as [|r0 rows]; [by intros ?%elem_of_nil|].
  unfold next_rowid.
  destruct (foldr_max_above (row_id r0) rows) as [H1 H2].
  intros [->|Hr]%elem_of_cons; [lia|]. specialize (H2 r Hr). lia.
Qed.

Lemma next_rowid_fresh (rows : list Row) : next_rowid rows ∉ row_id <$> rows.
Proof.
  intros (r & Hid & Hr)%list_elem_of_fmap.
  apply next_rowid_above in Hr. lia.
Qed.

(** X4.  Whatever the request, signing up keeps the usernames of the table
    pairwise distinct. *)
Theorem signup_keeps_usernames_unique (env : Env) (method : string)
    (form : gmap string string) (w : World) :
  NoDup (row_username <$> db w) →
  NoDup (row_username <$> db (signup env method form w).2).
Proof.
  intros Hnd.
  destruct (signup_db_cases env method form w) as [->|(u & h & Hf & ->)];
    [done|].
  rewrite fmap_app. apply NoDup_app. split_and!; [done| |apply NoDup_singleton].
  intros x Hx ->%list_elem_of_singleton.
  by apply username_taken_false in Hf.
Qed.

Lemma signup_keeps_usernames_unique_witness :
  NoDup (row_username <$>
         db (signup offline_env "POST" (credentials "bob" "pw") alice_world).2).
Proof.
  apply signup_keeps_usernames_unique.
  apply (bool_decide_unpack (NoDup (row_username <$> db alice_world))).
  by vm_compute.
Defined.

(** X5.  In a table whose ids are distinct and below the largest 64-bit
    integer, signing up keeps the ids distinct, whatever the request: a new
    row gets an id above every id in use. *)
Theorem signup_keeps_ids_unique (env : Env) (method : string)
    (form : gmap string string) (w : World) :
  NoDup (row_id <$> db w) →
  Forall (λ r, (row_id r < 2 ^ 63 - 1)%Z) (db w) →
  NoDup (row_id <$> db (signup env method form w).2)
  ∧ ∀ r, r ∈ db (signup env method form w).2 → r ∉ db w →
         (row_id r <= 2 ^ 63 - 1)%Z
         ∧ ∀ r0, r0 ∈ db w → (row_id r0 < row_id r)%Z.
Proof.
  intros Hnd Hmax.
  destruct (signup_db_cases env method form w) as [->|(u & h & Hf & ->)];
    [done|].
  split.
  - rewrite fmap_app. apply NoDup_app. split_and!; [done| |apply NoDup_singleton].
    intros x Hx ->%list_elem_of_singleton. by apply next_rowid_fresh in Hx.
  - intros r [?|Hr1]%elem_of_app Hr; [done|].
    apply list_elem_of_singleton in Hr1 as ->. simpl. split.
    + destruct (db w) as [|r0 rows] eqn:E; [done|]. unfold next_rowid.
      assert (foldr (λ r m, Z.max (row_id r) m) (row_id r0) rows
              < 2 ^ 63 - 1)%Z; [|lia].
      apply Forall_cons in Hmax as [H0 Hrows]. clear -H0 Hrows.
      induction Hrows as [|r rows Hr _ IH]; simpl; lia.
    + intros r0 Hr0. by apply next_rowid_above.
Qed.

Lemma signup_keeps_ids_unique_witness :
  NoDup (row_id <$>
         db (signup offline_env "POST" (credentials "bob" "pw") alice_world).2).
Proof.
  apply signup_keeps_ids_unique.
  - apply (bool_decide_unpack (NoDup (row_id <$> db alice_world))).
    by vm_compute.
  - repeat constructor.
Defined.

Lemma login_cases (env : Env) (method : string) (form : gmap string string)
    (w : World) :
  (∃ resp, login env method form w = (Val resp, w)
           ∧ resp = Render "login.html" ∅)
  ∨ login env method form w = invalid_login w
  ∨ (∃ user e,
       select_by_username (form !! "username") (db w) = Some user
       ∧ check_password_hash env (row_password user) (form !! "password")
         = Raise e
       ∧ login env method form w = (Raise e, w))
  ∨ (∃ user,
       select_by_username (form !! "username") (db w) = Some user
       ∧ check_password_hash env (row_password user) (form !! "password")
         = Val true
       ∧ login env method form w
         = (Val (Redirect "profile"), logged_in user w)).
Proof.
  unfold login. destruct (String.eqb method "POST"); [|left; eauto].
  run. destruct (select_by_username _ (db w)) as [user|]; [|by right; left].
  destruct (check_password_hash env _ _) as [[|]|e] eqn:E.
  - right; right; right. eauto.
  - by right; left.
  - right; right; left. eauto.
Qed.

Lemma index_cases (env : Env) (method : string) (form : gmap string string)
    (w : World) :
  index env method form w = (Val (index_page None None), w)
  ∨ index env method form w
    = (Val (Redirect "index"), with_flash "Please enter event and clothes." w)
  ∨ (∃ suggestion,
       index env method form w = (Val (index_page (Some suggestion) None), w))
  ∨ (∃ suggestion notice,
       index env method form w
       = (Val (index_page suggestion notice),
          (call_openai env (str_of (form !! "event"))
             (str_of (form !! "clothes")) (7 # 10) w).2)).
Proof.
  unfold index. destruct (String.eqb method "POST"); [|by left].
  destruct (negb _ || negb _); [by right; left|].
  destruct (bool_decide _); [|right; right; left; eauto].
  right; right; right. run.
  destruct (call_openai_total env (str_of (form !! "event"))
              (str_of (form !! "clothes")) (7 # 10) w) as ([v Hv] & _).
  destruct (call_openai env _ _ _ w) as [r w']. simpl in Hv. subst r.
  destruct (Py.truthy v); simpl; eauto.
Qed.

(** X6.  Only signing up writes to the users table: the suggestion page,
    the login, the logout and the profile page leave it as it is, for every
    request.  The session is left alone by the suggestion page, the signup
    and the profile page. *)
Theorem only_signup_writes_table (env : Env) (method : string)
    (form : gmap string string) (w : World) :
  db (index env method form w).2 = db w
  ∧ db (login env method form w).2 = db w
  ∧ db (logout w).2 = db w
  ∧ db (profile w).2 = db w
  ∧ session (index env method form w).2 = session w
  ∧ session (signup env method form w).2 = session w
  ∧ session (profile w).2 = session w.
Proof.
  assert (Hi : db (index env method form w).2 = db w
               ∧ session (index env method form w).2 = session w).
  { destruct (index_cases env method form w)
      as [->|[->|[[? ->]|(? & ? & ->)]]]; try done.
    simpl. split; apply call_openai_total. }
  assert (Hl : db (login env method form w).2 = db w).
  { destruct (login_cases env method form w)
      as [(? & -> & _)|[->|[(? & ? & _ & _ & ->)|(? & _ & _ & ->)]]]; done. }
  assert (Hp : db (profile w).2 = db w ∧ session (profile w).2 = session w).
  { unfold profile. run. destruct (session w !! "user_id"); [|done].
    by destruct (select_username_by_id _ _). }
  assert (Hs : session (signup env method form w).2 = session w).
  { unfold signup. destruct (String.eqb method "POST"); [|done].
    destruct (negb _ || negb _); [done|].
    run. simpl. by destruct (username_taken _ (db w)). }
  split_and!; try done; tauto.
Qed.

(** X7.  A signup request in which the username or the password is missing
    or empty is turned back to the signup form with the message; no row is
    added and no hash is computed. *)
Theorem signup_requires_both_fields (env : Env) (w : World)
    (form : gmap string string) :
  Py.truthy (form !! "username") = false
  ∨ Py.truthy (form !! "password") = false →
  signup env "POST" form w
  = (Val (Redirect "signup"), with_flash "Username and password required." w).
Proof.
  intros H. unfold signup.
  change (String.eqb "POST" "POST") with true. cbv iota.
  destruct H as [-> | ->]; [done|]. by rewrite orb_true_r.
Qed.

Lemma signup_requires_both_fields_witness :
  signup offline_env "POST" (credentials "carol" "") alice_world
  = (Val (Redirect "signup"),
     with_flash "Username and password required." alice_world).
Proof.
  apply signup_requires_both_fields. right. reflexivity.
Defined.

(** ** Sessions *)

Lemma find_id_unique (rows : list Row) (user : Row) :
  NoDup (row_id <$> rows) → user ∈ rows →
  List.find (λ r, Z.eqb (row_id r) (row_id user)) rows = Some user.
Proof.
  induction rows as [|r rows IH]; simpl.
  - by intros _ ?%elem_of_nil.
  - intros [Hr Hnd]%NoDup_cons [->|Hu]%elem_of_cons.
    + by rewrite Z.eqb_refl.
    + destruct (Z.eqb_spec (row_id r) (row_id user)) as [E|_]; [|by apply IH].
      exfalso. apply Hr. rewrite E. by apply list_elem_of_fmap_2.
Qed.

Lemma select_by_username_some (username : option string) (rows : list Row)
    (user : Row) :
  select_by_username username rows = Some user →
  user ∈ rows ∧ username = Some (row_username user).
Proof.
  destruct username as [u|]; [|done]. simpl.
  intros [Hin Heq]%find_some. split; [by apply list_elem_of_In|].
  apply String.eqb_eq in Heq. by rewrite Heq.
Qed.

Lemma profile_logged_in (user : Row) (w : World) :
  NoDup (row_id <$> db w) → user ∈ db w →
  profile (logged_in user w)
  = (Val (Render "profile.html" (<["username" := Some (row_username user)]> ∅)),
     logged_in user w).
Proof.
  intros Hnd Hin. unfold profile. run. simpl.
  rewrite lookup_insert_eq. unfold select_username_by_id.
  by rewrite find_id_unique.
Qed.

(** X8.  A login is granted only to a stored user whose password check
    passed: when the handler redirects to the profile, the submitted
    username is that of a row of the table, the check of the submitted
    password against that row's hash returned true, and the session now
    carries that row's id.  In every other case the session is as it
    was. *)
Theorem login_sound (env : Env) (method : string)
    (form : gmap string string) (w : World) :
  ((login env method form w).1 = Val (Redirect "profile") →
   ∃ user,
     user ∈ db w
     ∧ form !! "username" = Some (row_username user)
     ∧ check_password_hash env (row_password user) (form !! "password")
       = Val true
     ∧ session (login env method form w).2
       = <["user_id" := row_id user]> (session w))
  ∧ ((login env method form w).1 ≠ Val (Redirect "profile") →
     session (login env method form w).2 = session w).
Proof.
  destruct (login_cases env method form w)
    as [(? & -> & ->)|[->|[(? & ? & _ & _ & ->)|(user & Hs & Hc & ->)]]];
    simpl; split; try done.
  intros _. exists user.
  apply select_by_username_some in Hs as [? ?]. done.
Qed.

Lemma login_sound_witness :
  ∃ user,
    user ∈ db alice_world
    ∧ credentials "alice" "pw1" !! "username" = Some (row_username user)
    ∧ check_password_hash offline_env (row_password user)
        (credentials "alice" "pw1" !! "password") = Val true
    ∧ session (login offline_env "POST" (credentials "alice" "pw1")
                 alice_world).2
      = <["user_id" := row_id user]> (session alice_world).
Proof.
  apply (login_sound offline_env "POST" (credentials "alice" "pw1") alice_world).
  reflexivity.
Defined.

(** X9.  Over a table whose ids are distinct, the profile page that follows
    a granted login shows the username that was submitted. *)
Theorem login_then_profile (env : Env) (method : string)
    (form : gmap string string) (w : World) :
  NoDup (row_id <$> db w) →
  (login env method form w).1 = Val (Redirect "profile") →
  ∃ u, form !! "username" = Some u
       ∧ profile (login env method form w).2
         = (Val (Render "profile.html" (<["username" := Some u]> ∅)),
            (login env method form w).2).
Proof.
  intros Hnd.
  destruct (login_cases env method form w)
    as [(? & -> & ->)|[->|[(? & ? & _ & _ & ->)|(user & Hs & Hc & ->)]]];
    simpl; try done.
  intros _. apply select_by_username_some in Hs as [Hin Hu].
  exists (row_username user). split; [done|]. by apply profile_logged_in.
Qed.

Lemma login_then_profile_witness :
  ∃ u, credentials "alice" "pw1" !! "username" = Some u
       ∧ profile (login offline_env "POST" (credentials "alice" "pw1")
                    alice_world).2
         = (Val (Render "profile.html" (<["username" := Some u]> ∅)),
            (login offline_env "POST" (credentials "alice" "pw1")
               alice_world).2).
Proof.
  apply login_then_profile; [|reflexivity].
  apply (bool_decide_unpack (NoDup (row_id <$> db alice_world))).
  by vm_compute.
Defined.

(** X10.  Signing up, logging in with the same credentials and opening the
    profile shows the new username, provided the password check accepts
    the hash that was generated for the password. *)
Theorem signup_login_profile (env : Env) (w : World) (u p : string) :
  u ≠ "" → p ≠ "" → username_taken u (db w) = false →
  NoDup (row_id <$> db w) →
  check_password_hash env (generate_password_hash env (rng w) p) (Some p)
    = Val true →
  let w1 := (signup env "POST" (credentials u p) w).2 in
  let w2 := (login env "POST" (credentials u p) w1).2 in
  (signup env "POST" (credentials u p) w).1 = Val (Redirect "login")
  ∧ (login env "POST" (credentials u p) w1).1 = Val (Redirect "profile")
  ∧ session w2 !! "user_id" = Some (next_rowid (db w))
  ∧ profile w2
    = (Val (Render "profile.html" (<["username" := Some u]> ∅)), w2).
Proof.
  intros Hu Hp Hf Hnd Hc w1 w2.
  set (row := {| row_id := next_rowid (db w); row_username := u;
                 row_password := generate_password_hash env (rng w) p |}).
  assert (H1 : signup env "POST" (credentials u p) w
               = (Val (Redirect "login"), signed_up env u p w))
    by by apply signup_fresh.
  assert (Hsel : select_by_username (credentials u p !! "username") (db w1)
                 = Some row).
  { subst w1. rewrite H1. simpl. by apply select_by_username_fresh. }
  assert (H2 : login env "POST" (credentials u p) w1
               = (Val (Redirect "profile"), logged_in row w1)).
  { unfold login. change (String.eqb "POST" "POST") with true. cbv iota.
    run. rewrite Hsel.
    change (credentials u p !! "password") with (Some p).
    change (row_password row) with (generate_password_hash env (rng w) p).
    by rewrite Hc. }
  subst w2. rewrite H1, H2. simpl. split_and!; try done.
  - by rewrite lookup_insert_eq.
  - assert (E : row_username row = u) by done. rewrite <- E.
    apply profile_logged_in.
    + subst w1. rewrite H1. simpl. rewrite fmap_app. apply NoDup_app.
      split_and!; [done| |apply NoDup_singleton].
      intros x Hx ->%list_elem_of_singleton. by apply next_rowid_fresh in Hx.
    + subst w1. rewrite H1. simpl. apply elem_of_app. right.
      by apply list_elem_of_singleton.
Qed.

Lemma signup_login_profile_witness :
  profile (login offline_env "POST" (credentials "bob" "pw")
             (signup offline_env "POST" (credentials "bob" "pw")
                alice_world).2).2
  = (Val (Render "profile.html" (<["username" := Some "bob"]> ∅)),
     (login offline_env "POST" (credentials "bob" "pw")
        (signup offline_env "POST" (credentials "bob" "pw") alice_world).2).2).
Proof.
  apply (signup_login_profile offline_env alice_world "bob" "pw");
    try done.
  apply (bool_decide_unpack (NoDup (row_id <$> db alice_world))).
  by vm_compute.
Defined.

(** X11.  Logging out always succeeds, logged in or not: it removes
    [user_id] from the session and nothing else, and the profile page then
    sends the client to the login. *)
Theorem logout_then_profile (w : World) :
  (logout w).1 = Val (Redirect "index")
  ∧ session (logout w).2 !! "user_id" = None
  ∧ (∀ k, k ≠ "user_id" → session (logout w).2 !! k = session w !! k)
  ∧ (profile (logout w).2).1 = Val (Redirect "login")
  ∧ flashes (profile (logout w).2).2
    = flashes w ++ ["Logged out."; "Please login."].
Proof.
  unfold logout. run. simpl. split_and!.
  - done.
  - apply lookup_delete_eq.
  - intros k Hk. by rewrite lookup_delete_ne.
  - unfold profile. run. simpl. by rewrite lookup_delete_eq.
  - unfold profile. run. simpl. rewrite lookup_delete_eq. simpl.
    by rewrite <- app_assoc.
Qed.

(** ** The suggestion page and the gateway *)

Lemma index_post (env : Env) (w : World) (form : gmap string string)
    (event clothes_text : string) :
  form !! "event" = Some event → form !! "clothes" = Some clothes_text →
  event ≠ "" → clothes_text ≠ "" →
  index env "POST" form w
  = if bool_decide (form !! "use_ai" = Some "on") then
      (ai_suggestion ← call_openai env event clothes_text (7 # 10);
       if Py.truthy ai_suggestion then mret (index_page ai_suggestion None)
       else mret (index_page
                    (Some (suggest_rule_based event clothes_text))
                    (Some ai_unavailable))) w
    else (Val (index_page (Some (suggest_rule_based event clothes_text)) None),
          w).
Proof.
  intros He Hc Hne Hnc. unfold index.
  change (String.eqb "POST" "POST") with true. cbv iota.
  rewrite He, Hc.
  destruct event as [|a event]; [done|].
  destruct clothes_text as [|b clothes_text]; [done|].
  change (negb (Py.truthy (Some (String a event)))
          || negb (Py.truthy (Some (String b clothes_text)))) with false.
  cbv iota. change (str_of (Some ?s)) with s.
  by destruct (bool_decide _).
Qed.

Lemma call_openai_answers (env : Env) (event clothes_text : string)
    (temperature : Q) (w : World) (text : string)
    (rest : list (option string)) :
  let req := {| req_model := "gpt-3.5-turbo";
                req_content := prompt event clothes_text;
                req_temperature := temperature;
                req_max_tokens := 150 |} in
  Py.truthy (OPENAI_API_KEY env) = true → OpenAI env = true →
  new_client env (str_of (OPENAI_API_KEY env)) = Val () →
  chat_completions_create env req = Val (Some text :: rest) →
  call_openai env event clothes_text temperature w
  = (Val (Some (Py.strip text)),
     with_requests (http_requests env req) req w).
Proof.
  intros req Hk Ho Hc Hr. unfold call_openai. rewrite Hk, Ho. simpl.
  run. rewrite Hc. fold req. by rewrite Hr.
Qed.

(** X12.  A suggestion request in which the event or the clothes field is
    missing or empty is turned back with the message; nothing is sent to
    the remote model, even when the AI was asked for. *)
Theorem index_requires_both_fields (env : Env) (w : World)
    (form : gmap string string) :
  Py.truthy (form !! "event") = false
  ∨ Py.truthy (form !! "clothes") = false →
  index env "POST" form w
  = (Val (Redirect "index"), with_flash "Please enter event and clothes." w).
Proof.
  intros H. unfold index.
  change (String.eqb "POST" "POST") with true. cbv iota.
  destruct H as [-> | ->]; [done|]. by rewrite orb_true_r.
Qed.

Lemma index_requires_both_fields_witness :
  index keyed_env "POST" (<["event" := "Party"]> (<["use_ai" := "on"]> ∅))
    empty_world
  = (Val (Redirect "index"),
     with_flash "Please enter event and clothes." empty_world).
Proof.
  apply index_requires_both_fields. right. reflexivity.
Defined.

(** X13.  Unless the [use_ai] field is exactly "on", a suggestion request
    with both texts is answered by the rule engine alone: no notice, no
    request to the remote model, the world as it was. *)
Theorem index_without_ai (env : Env) (w : World) (form : gmap string string)
    (event clothes_text : string) :
  form !! "event" = Some event → form !! "clothes" = Some clothes_text →
  event ≠ "" → clothes_text ≠ "" →
  form !! "use_ai" ≠ Some "on" →
  index env "POST" form w
  = (Val (index_page (Some (suggest_rule_based event clothes_text)) None), w).
Proof.
  intros He Hc Hne Hnc Hai.
  rewrite (index_post env w form event clothes_text) by done.
  by rewrite bool_decide_eq_false_2.
Qed.

Lemma index_without_ai_witness :
  index keyed_env "POST"
    (<["event" := "Wedding"]> (<["clothes" := "green dress"]>
     (<["use_ai" := "ON"]> ∅))) empty_world
  = (Val (index_page (Some (suggest_rule_based "Wedding" "green dress")) None),
     empty_world).
Proof.
  apply index_without_ai; done.
Defined.

(** X14.  When the call of the client returns an answer, the page shows
    the content of the first choice with its surrounding whitespace removed
    and no notice; when that content is blank, the page falls back to the
    rule-based suggestion with the AI-unavailable notice.  The requests the
    client sent for the call, retries included, are the only change to the
    world. *)
Theorem index_with_ai_answer (env : Env) (w : World)
    (form : gmap string string) (event clothes_text text : string)
    (rest : list (option string)) :
  form !! "event" = Some event → form !! "clothes" = Some clothes_text →
  event ≠ "" → clothes_text ≠ "" → form !! "use_ai" = Some "on" →
  Py.truthy (OPENAI_API_KEY env) = true → OpenAI env = true →
  new_client env (str_of (OPENAI_API_KEY env)) = Val () →
  chat_completions_create env (suggestion_request event clothes_text)
    = Val (Some text :: rest) →
  let after :=
    with_requests (http_requests env (suggestion_request event clothes_text))
      (suggestion_request event clothes_text) w in
  (Py.strip text ≠ "" →
   index env "POST" form w
   = (Val (index_page (Some (Py.strip text)) None), after))
  ∧ (Py.strip text = "" →
     index env "POST" form w
     = (Val (index_page (Some (suggest_rule_based event clothes_text))
                        (Some ai_unavailable)),
        after)).
Proof.
  intros He Hc Hne Hnc Hai Hk Ho Hcl Hr after.
  rewrite (index_post env w form event clothes_text) by done.
  rewrite bool_decide_eq_true_2 by done.
  unfold mbind, M_bind.
  rewrite (call_openai_answers env event clothes_text (7 # 10) w text rest)
    by done.
  split; intros Hs.
  - by destruct (Py.strip text).
  - by rewrite Hs.
Qed.

Lemma index_with_ai_answer_witness :
  index answering_env "POST" ai_form empty_world
  = (Val (index_page (Some "- Outfit: the red dress.") None),
     with_requests 2 (suggestion_request "Party" "red dress") empty_world).
Proof.
  apply (index_with_ai_answer answering_env empty_world ai_form
           "Party" "red dress" "  - Outfit: the red dress.  " [Some "unused"]);
    done.
Defined.

(** X15.  The suggestion page always answers, for every environment and
    request: with the redirect to itself or with [index.html], never with
    an exception.  It calls the client at most once; with the client's
    retries that is at most three requests to the remote model, all of
    them the same. *)
Theorem index_always_answers (env : Env) (method : string)
    (form : gmap string string) (w : World) :
  ((index env method form w).1 = Val (Redirect "index")
   ∨ ∃ suggestion notice,
       (index env method form w).1 = Val (index_page suggestion notice))
  ∧ ∃ n req, (n <= 3)%nat
             ∧ sent (index env method form w).2 = sent w ++ replicate n req.
Proof.
  assert (H0 : ∀ l : list ChatRequest,
             ∃ n req, (n <= 3)%nat ∧ l = l ++ replicate n req).
  { intros l. exists 0, (suggestion_request "" ""). split; [lia|].
    simpl. by rewrite app_nil_r. }
  destruct (index_cases env method form w)
    as [->|[->|[[? ->]|(? & ? & ->)]]]; simpl; split; eauto.
  destruct (call_openai_total env (str_of (form !! "event"))
              (str_of (form !! "clothes")) (7 # 10) w)
    as (_ & _ & _ & [->|[req ->]]); [done|].
  exists (http_requests env req), req. split; [|done].
  apply http_requests_bounds.
Qed.

(** X16.  What goes wrong in the gateway is printed, not shown: a failure
    to build the client or to get an answer adds the one line
    "OpenAI error: " followed by the message of the exception to the
    output, and the gateway never flashes a message to the user. *)
Theorem gateway_logs_failure (env : Env) (event clothes_text : string)
    (temperature : Q) (w : World) (e : PyExc) :
  Py.truthy (OPENAI_API_KEY env) = true → OpenAI env = true →
  let req := {| req_model := "gpt-3.5-turbo";
                req_content := prompt event clothes_text;
                req_temperature := temperature;
                req_max_tokens := 150 |} in
  (new_client env (str_of (OPENAI_API_KEY env)) = Raise e →
   call_openai env event clothes_text temperature w
   = (Val None, with_stdout ("OpenAI error: " +:+ exc_msg e) w))
  ∧ (new_client env (str_of (OPENAI_API_KEY env)) = Val () →
     chat_completions_create env req = Raise e →
     call_openai env event clothes_text temperature w
     = (Val None,
        with_stdout ("OpenAI error: " +:+ exc_msg e)
          (with_requests (http_requests env req) req w)))
  ∧ (new_client env (str_of (OPENAI_API_KEY env)) = Val () →
     chat_completions_create env req = Val [] →
     call_openai env event clothes_text temperature w
     = (Val None,
        with_stdout "OpenAI error: list index out of range"
          (with_requests (http_requests env req) req w)))
  ∧ flashes (call_openai env event clothes_text temperature w).2 = flashes w.
Proof.
  intros Hk Ho req. unfold call_openai. rewrite Hk, Ho. simpl.
  split_and!.
  - intros Hc. run. by rewrite Hc.
  - intros Hc Hr. run. rewrite Hc. fold req. by rewrite Hr.
  - intros Hc Hr. run. rewrite Hc. fold req. by rewrite Hr.
  - run. destruct (new_client env _); [|done]. fold req.
    by destruct (chat_completions_create env req) as [[|[text|] ?]|].
Qed.

Lemma gateway_logs_failure_witness :
  call_openai keyed_env "Party" "red dress" (7 # 10) empty_world
  = (Val None,
     with_stdout "OpenAI error: Connection error."
       (with_requests 3 (suggestion_request "Party" "red dress")
          empty_world)).
Proof.
  destruct (gateway_logs_failure keyed_env "Party" "red dress" (7 # 10)
              empty_world connection_error)
    as (_ & H & _); [reflexivity|reflexivity|].
  by apply H.
Defined.
